(** * Taper: the Three.js snippet synthesiser and the prompt gateway

    A shallow embedding of [train_3d_ai.py] (class [ThreeJSTrainer] and
    [main]) and of [server.py] ([TapeServerHandler.handle_generate_request]),
    followed by the properties of the specification that concern them.

    Conventions.
    - A Python [str] is a Rocq [string]; a character is a code point below
      256.  Every string the program itself builds is plain ASCII.
    - A Python [dict] is an association list in insertion order, which is
      the order [dict.items()] iterates in.
    - A [for] loop that appends to a list is a [fold_left] threading the
      list built so far. *)

From Stdlib Require Import String Ascii List Bool Arith Lia ZArith QArith.
From Stdlib Require Import Floats.SpecFloat.
Import ListNotations.
Close Scope Q_scope.
Open Scope list_scope.
Open Scope string_scope.

(** ** Strings *)

(** The line break inside the triple-quoted templates. *)
Definition nl : string := String "010"%char EmptyString.

(** The double quote. *)
Definition dquote : string := String "034"%char EmptyString.

(** [sub in s] of Python, as a proposition. *)
Definition Contains (sub s : string) : Prop :=
  exists pre post, s = pre ++ sub ++ post.

(** [s.startswith(p)]. *)
Fixpoint starts_with (p s : string) : bool :=
  match p, s with
  | EmptyString, _ => true
  | String a p', String b s' =>
      if Ascii.eqb a b then starts_with p' s' else false
  | String _ _, EmptyString => false
  end.

(** [s.count(needle)] with overlapping occurrences counted: the number of
    positions of [s] at which [needle] starts. *)
Fixpoint occurrences (needle s : string) : nat :=
  (if starts_with needle s then 1 else 0) +
  match s with
  | EmptyString => 0
  | String _ s' => occurrences needle s'
  end.

(** Whether a character occurs in a string. *)
Fixpoint mem_char (c : ascii) (s : string) : bool :=
  match s with
  | EmptyString => false
  | String a s' => Ascii.eqb c a || mem_char c s'
  end.

(** ** Dictionaries *)

Module Dict.

Definition t (V : Type) : Type := list (string * V).

(** [d.get(k, default)]. *)
Fixpoint get {V : Type} (d : t V) (k : string) (default : V) : V :=
  match d with
  | [] => default
  | (k', v) :: d' => if String.eqb k k' then v else get d' k default
  end.

(** [d.items()] is the list itself.  [lookup] is [d[k]] when [k in d]. *)
Fixpoint lookup {V : Type} (d : t V) (k : string) : option V :=
  match d with
  | [] => None
  | (k', v) :: d' => if String.eqb k k' then Some v else lookup d' k
  end.

Definition keys {V : Type} (d : t V) : list string := map fst d.
Definition values {V : Type} (d : t V) : list V := map snd d.

End Dict.

(** ** The fragment of [re] the validator uses

    The six patterns are built from literal characters, the escaped dot
    and the class [\s], each optionally followed by [*] or [+].  A pattern
    is compiled to a list of quantified atoms and searched by backtracking,
    as [re.search] does. *)

Module Re.

Inductive atom : Type :=
| Chr (c : ascii)     (* a literal character, possibly escaped *)
| Space.              (* \s *)

Inductive quant : Type :=
| One                 (* no suffix *)
| ZeroOrMore          (* * *)
| OneOrMore.          (* + *)

Definition item : Type := (atom * quant)%type.
Definition regex : Type := list item.

(** [\s] on a [str] pattern: the white space of Unicode, here below 256:
    TAB LF VT FF CR, FS GS RS US, SPACE, NEL and NBSP. *)
Definition is_space (c : ascii) : bool :=
  let n := nat_of_ascii c in
  ((9 <=? n)%nat && (n <=? 13)%nat) || ((28 <=? n)%nat && (n <=? 32)%nat)
  || (n =? 133)%nat || (n =? 160)%nat.

(** Characters with a special meaning when not escaped. *)
Definition is_meta (c : ascii) : bool :=
  mem_char c ".^$*+?{}[]()|\".

Definition atom_matches (a : atom) (c : ascii) : bool :=
  match a with
  | Chr x => Ascii.eqb x c
  | Space => is_space c
  end.

(** The quantifier that follows an atom, and the rest of the pattern. *)
Definition take_quant (p : string) : quant * string :=
  match p with
  | String "*" p' => (ZeroOrMore, p')
  | String "+" p' => (OneOrMore, p')
  | _ => (One, p)
  end.

(** [compile] reads one atom and its quantifier at a time.  The fuel is
    the length of the pattern, which every step shortens.  [None] marks
    a pattern outside the fragment. *)
Fixpoint compile_fuel (fuel : nat) (p : string) : option regex :=
  match fuel with
  | O => match p with EmptyString => Some [] | _ => None end
  | S fuel' =>
      match p with
      | EmptyString => Some []
      | String "\" (String c p') =>
          let a :=
            if Ascii.eqb c "s" then Some Space
            else if is_meta c then Some (Chr c)
            else None in
          match a with
          | None => None
          | Some a =>
              let (q, p'') := take_quant p' in
              option_map (cons (a, q)) (compile_fuel fuel' p'')
          end
      | String c p' =>
          if is_meta c then None
          else
            let (q, p'') := take_quant p' in
            option_map (cons (Chr c, q)) (compile_fuel fuel' p'')
      end
  end.

Definition compile (p : string) : option regex :=
  compile_fuel (String.length p) p.

(** Greedy repetition of one atom, then the continuation [k]. *)
Fixpoint match_star (a : atom) (k : string -> bool) (s : string) : bool :=
  match s with
  | EmptyString => k EmptyString
  | String c s' =>
      if atom_matches a c then
        if match_star a k s' then true else k s
      else k s
  end.

(** Whether the regex matches a prefix of [s]. *)
Fixpoint match_here (r : regex) (s : string) {struct r} : bool :=
  match r with
  | [] => true
  | (a, One) :: r' =>
      match s with
      | EmptyString => false
      | String c s' =>
          if atom_matches a c then match_here r' s' else false
      end
  | (a, ZeroOrMore) :: r' => match_star a (match_here r') s
  | (a, OneOrMore) :: r' =>
      match s with
      | EmptyString => false
      | String c s' =>
          if atom_matches a c then match_star a (match_here r') s'
          else false
      end
  end.

(** Whether the regex matches at some position of [s]. *)
Fixpoint search_regex (r : regex) (s : string) : bool :=
  if match_here r s then true
  else
    match s with
    | EmptyString => false
    | String _ s' => search_regex r s'
    end.

(** [re.search(pattern, s)] as a truth value.  A pattern outside the
    fragment finds nothing; the validator has none (see
    [required_patterns_compile]). *)
Definition search (pattern s : string) : bool :=
  match compile pattern with
  | Some r => search_regex r s
  | None => false
  end.

(** The strings a regex denotes. *)
Fixpoint all_match (a : atom) (w : string) : Prop :=
  match w with
  | EmptyString => True
  | String c w' => atom_matches a c = true /\ all_match a w'
  end.

Inductive Matches : regex -> string -> Prop :=
| M_nil : Matches [] EmptyString
| M_one a c r s :
    atom_matches a c = true -> Matches r s ->
    Matches ((a, One) :: r) (String c s)
| M_star a w r s :
    all_match a w -> Matches r s ->
    Matches ((a, ZeroOrMore) :: r) (w ++ s)
| M_plus a c w r s :
    atom_matches a c = true -> all_match a w -> Matches r s ->
    Matches ((a, OneOrMore) :: r) (String c (w ++ s)).

End Re.

(** ** [train_3d_ai.py] *)

Module Trainer.

(** One training example: the dictionary with the keys ['prompt'],
    ['code'] and ['category']. *)
Record Example : Type := mkExample {
  prompt : string;
  code : string;
  category : string
}.

(** The attributes [__init__] sets. *)
Record ThreeJSTrainer : Type := mkTrainer {
  training_data : list Example;
  geometries : Dict.t string;
  materials : Dict.t string;
  colors : Dict.t string
}.

Definition init : ThreeJSTrainer := {|
  training_data := [];
  geometries := [
    ("sphere", "SphereGeometry");
    ("cube", "BoxGeometry");
    ("cylinder", "CylinderGeometry");
    ("cone", "ConeGeometry");
    ("torus", "TorusGeometry");
    ("plane", "PlaneGeometry");
    ("ring", "RingGeometry");
    ("dodecahedron", "DodecahedronGeometry");
    ("icosahedron", "IcosahedronGeometry");
    ("octahedron", "OctahedronGeometry");
    ("tetrahedron", "TetrahedronGeometry")
  ];
  materials := [
    ("standard", "MeshStandardMaterial");
    ("physical", "MeshPhysicalMaterial");
    ("basic", "MeshBasicMaterial");
    ("lambert", "MeshLambertMaterial");
    ("phong", "MeshPhongMaterial")
  ];
  colors := [
    ("red", "0xff0000");
    ("green", "0x00ff00");
    ("blue", "0x0000ff");
    ("yellow", "0xffff00");
    ("purple", "0x800080");
    ("orange", "0xffa500");
    ("pink", "0xffc0cb");
    ("cyan", "0x00ffff");
    ("gold", "0xffd700");
    ("silver", "0xc0c0c0")
  ]
|}.

(** *** [generate_code_template] *)

(** The local dictionary [params] of [generate_code_template]. *)
Definition template_params : Dict.t string := [
  ("SphereGeometry", "1.5, 32, 32");
  ("BoxGeometry", "2, 2, 2");
  ("CylinderGeometry", "1, 1, 3, 32");
  ("ConeGeometry", "1.5, 3, 8");
  ("TorusGeometry", "1.5, 0.5, 16, 100");
  ("PlaneGeometry", "3, 3");
  ("RingGeometry", "0.5, 1.5, 32");
  ("DodecahedronGeometry", "1.5");
  ("IcosahedronGeometry", "1.5");
  ("OctahedronGeometry", "1.5");
  ("TetrahedronGeometry", "1.5")
].

(** [param = params.get(geometry, '1, 1, 1')] in [generate_code_template]. *)
Definition template_param (geometry : string) : string :=
  Dict.get template_params geometry "1, 1, 1".

(** The local dictionary [animations]. *)
Definition animations : Dict.t string := [
  ("sphere", "object.rotation.y += 0.02; object.position.y = Math.sin(Date.now() * 0.001) * 0.3;");
  ("cube", "object.rotation.x += 0.01; object.rotation.y += 0.01; object.rotation.z += 0.005;");
  ("cylinder", "object.rotation.y += 0.02; object.position.y = Math.sin(Date.now() * 0.001) * 0.2;");
  ("cone", "object.rotation.y += 0.015; object.position.y = Math.sin(Date.now() * 0.0015) * 0.4;");
  ("torus", "object.rotation.x += 0.01; object.rotation.y += 0.02;")
].

(** [animation = animations.get(shape, ...)]. *)
Definition template_animation (shape : string) : string :=
  Dict.get animations shape
    "object.rotation.x += 0.01; object.rotation.y += 0.01;".

(** The part of both templates after the material statement, from the
    mesh construction to the closing of the animation hook. *)
Definition mesh_and_hook (animation : string) : string :=
  "const object = new THREE.Mesh(geometry, material);" ++ nl ++
  "object.castShadow = true;" ++ nl ++
  "object.receiveShadow = true;" ++ nl ++
  "object.userData.animate = () => { " ++ nl ++
  "    " ++ animation ++ nl ++
  "};".

Definition generate_code_template
    (shape geometry color color_name : string) : string :=
  let param := template_param geometry in
  let animation := template_animation shape in
  "const geometry = new THREE." ++ geometry ++ "(" ++ param ++ ");" ++ nl ++
  "const material = new THREE.MeshStandardMaterial({ " ++ nl ++
  "    color: " ++ color ++ ", " ++ nl ++
  "    metalness: 0.3, " ++ nl ++
  "    roughness: 0.4 " ++ nl ++
  "});" ++ nl ++
  mesh_and_hook animation.

(** *** [generate_advanced_code] *)

(** The local dictionary [params] of [generate_advanced_code]. *)
Definition advanced_params : Dict.t string := [
  ("SphereGeometry", "1.5, 32, 32");
  ("BoxGeometry", "2, 2, 2");
  ("CylinderGeometry", "1, 1, 3, 32");
  ("ConeGeometry", "1.5, 3, 8");
  ("TorusGeometry", "1.5, 0.5, 16, 100");
  ("OctahedronGeometry", "1.5")
].

(** [param = params.get(geometry, '1, 1, 1')] in [generate_advanced_code]. *)
Definition advanced_param (geometry : string) : string :=
  Dict.get advanced_params geometry "1, 1, 1".

(** The [if]/[elif] chain on [effect]: the pair [(material, animation)]
    it assigns. *)
Definition advanced_strategy (color effect : string) : string * string :=
  if effect =? "metallic" then
    ("new THREE.MeshStandardMaterial({ color: " ++ color ++ ", metalness: 0.9, roughness: 0.1 })",
     "object.rotation.y += 0.02; object.material.metalness = 0.9 + Math.sin(Date.now() * 0.002) * 0.1;")
  else if effect =? "emissive" then
    ("new THREE.MeshStandardMaterial({ color: " ++ color ++ ", emissive: " ++ color ++ ", emissiveIntensity: 0.3 })",
     "object.rotation.x += 0.01; object.rotation.y += 0.01; object.material.emissiveIntensity = 0.3 + Math.sin(Date.now() * 0.003) * 0.2;")
  else if effect =? "floating" then
    ("new THREE.MeshStandardMaterial({ color: " ++ color ++ ", metalness: 0.2, roughness: 0.8 })",
     "object.rotation.y += 0.01; object.position.y = Math.sin(Date.now() * 0.001) * 1.5;")
  else if effect =? "pulsing" then
    ("new THREE.MeshStandardMaterial({ color: " ++ color ++ ", metalness: 0.5, roughness: 0.3 })",
     "object.rotation.x += 0.005; object.rotation.y += 0.01; object.scale.setScalar(1 + Math.sin(Date.now() * 0.003) * 0.3);")
  else if effect =? "rainbow" then
    ("new THREE.MeshStandardMaterial({ color: " ++ color ++ ", metalness: 0.3, roughness: 0.4 })",
     "object.rotation.y += 0.02; const time = Date.now() * 0.001; object.material.color.setHSL((time * 0.2) % 1, 0.8, 0.5);")
  else if effect =? "glass" then
    ("new THREE.MeshPhysicalMaterial({ color: " ++ color ++ ", transmission: 0.9, opacity: 0.1, transparent: true, roughness: 0.0, metalness: 0.0 })",
     "object.rotation.x += 0.005; object.rotation.y += 0.01; object.position.y = Math.sin(Date.now() * 0.001) * 0.2;")
  else if effect =? "wood" then
    ("new THREE.MeshStandardMaterial({ color: " ++ color ++ ", metalness: 0.0, roughness: 0.9 })",
     "object.rotation.y += 0.01;")
  else if effect =? "crystal" then
    ("new THREE.MeshPhysicalMaterial({ color: " ++ color ++ ", transmission: 0.7, opacity: 0.3, transparent: true, roughness: 0.0, metalness: 0.1, clearcoat: 1.0 })",
     "object.rotation.x += 0.01; object.rotation.y += 0.015; object.rotation.z += 0.005;")
  else if effect =? "plasma" then
    ("new THREE.MeshStandardMaterial({ color: " ++ color ++ ", emissive: " ++ color ++ ", emissiveIntensity: 0.5 })",
     "object.rotation.y += 0.03; const time = Date.now() * 0.001; object.material.emissiveIntensity = 0.5 + Math.sin(time * 2) * 0.3; object.material.color.setHSL((time * 0.5) % 1, 1, 0.5);")
  else
    ("new THREE.MeshStandardMaterial({ color: " ++ color ++ ", metalness: 0.3, roughness: 0.4 })",
     "object.rotation.x += 0.01; object.rotation.y += 0.01;").

Definition generate_advanced_code
    (shape geometry color effect : string) : string :=
  let param := advanced_param geometry in
  let (material, animation) := advanced_strategy color effect in
  "const geometry = new THREE." ++ geometry ++ "(" ++ param ++ ");" ++ nl ++
  "const material = " ++ material ++ ";" ++ nl ++
  mesh_and_hook animation.

(** *** [generate_training_examples] *)

(** The list [complex_objects]: prompt, shape, color, effect. *)
Definition complex_objects : list (string * string * string * string) := [
  ("spinning golden sphere", "sphere", "0xffd700", "metallic");
  ("glowing blue cube", "cube", "0x0000ff", "emissive");
  ("floating red cylinder", "cylinder", "0xff0000", "floating");
  ("pulsing green torus", "torus", "0x00ff00", "pulsing");
  ("rotating rainbow cone", "cone", "0xff0000", "rainbow");
  ("transparent glass sphere", "sphere", "0x88ccff", "glass");
  ("metallic silver cube", "cube", "0xc0c0c0", "metallic");
  ("wooden brown cylinder", "cylinder", "0x8b4513", "wood");
  ("crystal clear diamond", "octahedron", "0xffffff", "crystal");
  ("glowing plasma ball", "sphere", "0xff00ff", "plasma")
].

(** The body of the inner loop of the first phase. *)
Definition basic_example (shape geometry color_name color_hex : string)
  : Example :=
  let prompt := "Create a " ++ color_name ++ " " ++ shape in
  let code := generate_code_template shape geometry color_hex color_name in
  {| prompt := prompt; code := code; category := "basic_shapes" |}.

(** The body of the loop of the second phase. *)
Definition advanced_example (self : ThreeJSTrainer)
    (o : string * string * string * string) : Example :=
  let '(prompt, shape, color, effect) := o in
  let geometry := Dict.get (geometries self) shape "BoxGeometry" in
  let code := generate_advanced_code shape geometry color effect in
  {| prompt := prompt; code := code; category := "advanced_objects" |}.

Definition generate_training_examples (self : ThreeJSTrainer)
  : list Example :=
  let examples := [] in
  let examples :=
    fold_left
      (fun examples '(shape, geometry) =>
         fold_left
           (fun examples '(color_name, color_hex) =>
              (examples ++
               [basic_example shape geometry color_name color_hex])%list)
           (colors self) examples)
      (geometries self) examples in
  let examples :=
    fold_left
      (fun examples o => (examples ++ [advanced_example self o])%list)
      complex_objects examples in
  examples.

(** [save_training_data] returns the examples it wrote to the file. *)
Definition save_training_data (self : ThreeJSTrainer) : list Example :=
  generate_training_examples self.

(** *** [validate_generated_code] *)

Definition required_patterns : list string := [
  "const\s+geometry\s*=\s*new\s+THREE\.";
  "const\s+material\s*=\s*new\s+THREE\.";
  "const\s+object\s*=\s*new\s+THREE\.Mesh";
  "object\.castShadow\s*=\s*true";
  "object\.receiveShadow\s*=\s*true";
  "object\.userData\.animate\s*="
].

(** The loop over the patterns, leaving at the first one not found. *)
Fixpoint validate_loop (patterns : list string) (code : string) : bool :=
  match patterns with
  | [] => true
  | pattern :: rest =>
      if negb (Re.search pattern code) then false
      else validate_loop rest code
  end.

Definition validate_generated_code (code : string) : bool :=
  validate_loop required_patterns code.

(** *** [main] *)

Record Message : Type := mkMessage {
  role : string;
  content : string
}.

(** One item of [fine_tune_data]: the dictionary with the key
    ['messages']. *)
Record FineTuneRecord : Type := mkRecord {
  messages : list Message
}.

Definition fine_tune_record (example : Example) : FineTuneRecord := {|
  messages := [
    {| role := "system";
       content := "You are an expert Three.js developer. Generate only clean JavaScript code without any markdown formatting, comments, or explanations." |};
    {| role := "user";
       content := "Create Three.js code for: " ++ prompt example |};
    {| role := "assistant";
       content := code example |}
  ]
|}.

(** The loop of [main] that fills [fine_tune_data]. *)
Definition build_fine_tune_data (training_data : list Example)
  : list FineTuneRecord :=
  fold_left
    (fun fine_tune_data example =>
       (fine_tune_data ++ [fine_tune_record example])%list)
    training_data [].

(** The loop of [main] over [training_data[:10]]. *)
Definition count_valid (training_data : list Example) : nat :=
  fold_left
    (fun valid_count example =>
       if validate_generated_code (code example)
       then valid_count + 1 else valid_count)
    (firstn 10 training_data) 0.

(** What [main] computes: the corpus it saves, the number of valid
    examples it prints and the data set it writes line by line. *)
Record MainResult : Type := mkMain {
  main_training_data : list Example;
  main_valid_count : nat;
  main_fine_tune_data : list FineTuneRecord
}.

Definition main : MainResult :=
  let trainer := init in
  let training_data := save_training_data trainer in
  let valid_count := count_valid training_data in
  let fine_tune_data := build_fine_tune_data training_data in
  {| main_training_data := training_data;
     main_valid_count := valid_count;
     main_fine_tune_data := fine_tune_data |}.

(** The content of the message of a given role in a record, if any. *)
Definition content_of_role (r : string) (rec : FineTuneRecord)
  : option string :=
  option_map content (find (fun m => role m =? r) (messages rec)).

End Trainer.


(** ** [server.py] *)

Module Server.

(** What [json.loads] returns. *)
Unset Elimination Schemes.
Inductive json : Type :=
| JNull
| JBool (b : bool)
| JInt (n : Z)
| JFloat (f : spec_float)
| JStr (s : string)
| JList (l : list json)
| JDict (d : list (string * json)).
Set Elimination Schemes.

(** The truth value of a parsed value, as [not prompt] tests it. *)
Definition truthy (v : json) : bool :=
  match v with
  | JNull => false
  | JBool b => b
  | JInt n => negb (n =? 0)%Z
  | JFloat f => match f with S754_zero _ => false | _ => true end
  | JStr s => negb (s =? "")
  | JList l => match l with [] => false | _ => true end
  | JDict d => match d with [] => false | _ => true end
  end.

(** The name of the Python type of a parsed value. *)
Definition type_name (v : json) : string :=
  match v with
  | JNull => "NoneType"
  | JBool _ => "bool"
  | JInt _ => "int"
  | JFloat _ => "float"
  | JStr _ => "str"
  | JList _ => "list"
  | JDict _ => "dict"
  end.

(** A computation that returns or raises an exception with a message. *)
Inductive outcome (A : Type) : Type :=
| Ok (a : A)
| Raise (e : string).
Arguments Ok {A} a.
Arguments Raise {A} e.

(** The configured client, [genai.GenerativeModel(name)]. *)
Record GenerativeModel : Type := mkModel {
  model_name : string
}.

(** The handler object: the attribute [__init__] sets. *)
Record TapeServerHandler : Type := mkHandler {
  model : option GenerativeModel
}.

(** [__init__], from the value of [os.getenv('GEMINI_API_KEY')]. *)
Definition init (api_key : option string) : TapeServerHandler :=
  match api_key with
  | Some k =>
      if negb (k =? "") then {| model := Some (mkModel "gemini-1.5-flash") |}
      else {| model := None |}
  | None => {| model := None |}
  end.

(** The request as the handler reads it: the parsed path, the outcome of
    [int(self.headers['Content-Length'])] and the bytes on [rfile]. *)
Record Request : Type := mkRequest {
  path : string;
  content_length : outcome Z;
  rfile : string
}.

(** What [generate_content] returns: an object whose [text] property
    gives the text, or raises when the answer has none. *)
Record GenerateContentResponse : Type := mkGenerated {
  text : outcome string
}.

(** The methods of the base class the handler calls to answer. *)
Inductive call : Type :=
| SendResponse (code : nat)
| SendHeader (name value : string)
| EndHeaders
| Write (data : string)
| SendError (code : nat) (message : string).

(** A handler run: it finishes with what it has sent, or calls
    [self.model.generate_content] over the network and goes on with what
    the call gave (the response object, or an exception). *)
Inductive action (A : Type) : Type :=
| Done (a : A)
| GenerateContent (m : GenerativeModel) (enhanced_prompt : string)
    (k : outcome GenerateContentResponse -> action A).
Arguments Done {A} a.
Arguments GenerateContent {A} m enhanced_prompt k.

(** The network calls of a run against a given collaborator, in order,
    and its result. *)
Fixpoint run {A : Type}
    (collaborator : string -> outcome GenerateContentResponse)
    (a : action A) : list string * A :=
  match a with
  | Done r => ([], r)
  | GenerateContent _ p k =>
      let (calls, r) := run collaborator (k (collaborator p)) in
      (p :: calls, r)
  end.

(** The status codes sent, in order. *)
Definition statuses (sent : list call) : list nat :=
  flat_map (fun c => match c with
                     | SendResponse code => [code]
                     | SendError code _ => [code]
                     | _ => []
                     end) sent.

(** The first status of a run that ends without a network call. *)
Definition status_of (a : action (list call)) : option nat :=
  match a with
  | Done sent => hd_error (statuses sent)
  | GenerateContent _ _ _ => None
  end.

(** [rfile.read(n)] of the buffered reader: at most [n] bytes, all of
    them for [-1], and a [ValueError] for a length below [-1]. *)
Definition read (n : Z) (data : string) : outcome string :=
  if (n <? -1)%Z then Raise "read length must be non-negative or -1"
  else if (n =? -1)%Z then Ok data
  else Ok (substring 0 (Z.to_nat n) data).

Section Handler.

(** The library functions the handler relies on: [json.loads] after
    [decode('utf-8')], [json.dumps] of the response dictionary after
    which comes [encode('utf-8')], and [str] of a parsed value, which
    the f-string applies to the prompt. *)
Variable json_loads : string -> outcome json.
Variable json_dumps : list (string * json) -> string.
Variable py_str : json -> string.

Definition create_enhanced_prompt (user_prompt : json) : string :=
  nl ++
  "        You are an expert Three.js developer. Generate ONLY JavaScript code to create a 3D object." ++ nl ++
  "        " ++ nl ++
  "        REQUIREMENTS:" ++ nl ++
  "        - The final object/group MUST be assigned to a variable named 'object'" ++ nl ++
  "        - Add an 'animate' function to 'object.userData' for smooth animation" ++ nl ++
  "        - Use appropriate Three.js geometries, materials, and groups" ++ nl ++
  "        - Include realistic materials with proper metalness, roughness, and color" ++ nl ++
  "        - Add shadows with 'castShadow = true' and 'receiveShadow = true'" ++ nl ++
  "        - Create interesting animations (rotation, scaling, position changes)" ++ nl ++
  "        - Use advanced materials like MeshStandardMaterial or MeshPhysicalMaterial" ++ nl ++
  "        " ++ nl ++
  "        DO NOT INCLUDE:" ++ nl ++
  "        - Scene, camera, renderer, or lighting setup" ++ nl ++
  "        - Import statements or external dependencies" ++ nl ++
  "        - Markdown backticks or code blocks" ++ nl ++
  "        - Comments or explanations" ++ nl ++
  "        " ++ nl ++
  "        User request: " ++ dquote ++ py_str user_prompt ++ dquote ++ nl ++
  "        " ++ nl ++
  "        Generate the code:" ++ nl ++
  "        ".

(** The [except Exception as e] clause. *)
Definition generation_failed (e : string) : list call :=
  [SendError 500 ("Generation failed: " ++ e)].

(** The status line and the headers of the answer to a generation; the
    dictionary of the answer is built after them. *)
Definition success_headers : list call := [
  SendResponse 200;
  SendHeader "Content-Type" "application/json";
  SendHeader "Access-Control-Allow-Origin" "*";
  EndHeaders
].

Definition handle_generate_request (self : TapeServerHandler)
    (req : Request) : action (list call) :=
  match content_length req with
  | Raise e => Done (generation_failed e)
  | Ok n =>
      match read n (rfile req) with
      | Raise e => Done (generation_failed e)
      | Ok post_data =>
          match json_loads post_data with
          | Raise e => Done (generation_failed e)
          | Ok (JDict request_data) =>
              let prompt := Dict.get request_data "prompt" (JStr "") in
              if negb (truthy prompt) then
                Done [SendError 400 "Prompt is required"]
              else
                match model self with
                | None => Done [SendError 500 "Gemini API not configured"]
                | Some m =>
                    let enhanced_prompt := create_enhanced_prompt prompt in
                    GenerateContent m enhanced_prompt
                      (fun generated =>
                         match generated with
                         | Raise e => Done (generation_failed e)
                         | Ok response =>
                             (* the headers are sent before
                                [response.text] is read *)
                             match text response with
                             | Raise e =>
                                 Done (success_headers
                                       ++ generation_failed e)%list
                             | Ok code =>
                                 Done (success_headers ++ [
                                         Write (json_dumps [
                                                  ("success", JBool true);
                                                  ("code", JStr code);
                                                  ("prompt", prompt)])
                                       ])%list
                             end
                         end)
                end
          | Ok other =>
              (* only a dictionary has [get]: AttributeError *)
              Done (generation_failed
                      ("'" ++ type_name other ++
                       "' object has no attribute 'get'"))
          end
      end
  end.

Definition do_POST (self : TapeServerHandler) (req : Request)
  : action (list call) :=
  if path req =? "/api/generate" then handle_generate_request self req
  else Done [SendError 404 "Endpoint not found"].

End Handler.

(** [do_OPTIONS]. *)
Definition do_OPTIONS : list call := [
  SendResponse 200;
  SendHeader "Access-Control-Allow-Origin" "*";
  SendHeader "Access-Control-Allow-Methods" "GET, POST, OPTIONS";
  SendHeader "Access-Control-Allow-Headers" "Content-Type";
  EndHeaders
].

End Server.

(** ** Reading numbers off generated text *)

(** The value of a string of decimal digits, and [None] for anything
    else. *)
Definition digit_value (c : ascii) : option N :=
  let n := N_of_ascii c in
  if ((48 <=? n) && (n <=? 57))%N then Some (n - 48)%N else None.

Fixpoint digits_value (acc : N) (s : string) : option N :=
  match s with
  | EmptyString => Some acc
  | String c s' =>
      match digit_value c with
      | Some d => digits_value (10 * acc + d)%N s'
      | None => None
      end
  end.

(** The text before and after the first dot of a literal. *)
Fixpoint split_dot (s : string) : string * option string :=
  match s with
  | EmptyString => (EmptyString, None)
  | String c s' =>
      if Ascii.eqb c "." then (EmptyString, Some s')
      else let (a, b) := split_dot s' in (String c a, b)
  end.

(** The rational a JavaScript literal [digits.digits] or [digits]
    denotes. *)
Definition decimal_value (lit : string) : option Q :=
  match split_dot lit with
  | (EmptyString, _) => None
  | (i, None) => option_map (fun n => inject_Z (Z.of_N n)) (digits_value 0 i)
  | (_, Some EmptyString) => None
  | (i, Some f) =>
      match digits_value 0 (i ++ f) with
      | Some n => Some (Qmake (Z.of_N n) (Pos.pow 10 (Pos.of_nat (String.length f))))
      | None => None
      end
  end.

(** ** Vocabulary of the specification *)

(** The nine effect tags with a strategy of their own. *)
Definition recognized_effects : list string :=
  ["metallic"; "emissive"; "floating"; "pulsing"; "rainbow";
   "glass"; "wood"; "crystal"; "plasma"].

(** The material and the animation of the [else] branch. *)
Definition default_material (color : string) : string :=
  "new THREE.MeshStandardMaterial({ color: " ++ color ++ ", metalness: 0.3, roughness: 0.4 })".

Definition default_animation : string :=
  "object.rotation.x += 0.01; object.rotation.y += 0.01;".

(** The geometry kinds both parameter tables know. *)
Definition shared_geometries : list string :=
  ["SphereGeometry"; "BoxGeometry"; "CylinderGeometry"; "ConeGeometry";
   "TorusGeometry"; "OctahedronGeometry"].

(** The six statements the validator asks for, one per pattern, in the
    order of the patterns. *)
Definition six_statements : list string := [
  "const geometry = new THREE.BoxGeometry(2, 2, 2);";
  "const material = new THREE.MeshBasicMaterial();";
  "const object = new THREE.Mesh(geometry, material);";
  "object.castShadow = true;";
  "object.receiveShadow = true;";
  "object.userData.animate = () => {};"
].

(** The statements but the [i]-th, as one fragment. *)
Definition fragment_without (i : nat) : string :=
  String.concat nl (firstn i six_statements ++ skipn (S i) six_statements)%list.

(** The parameter set that tells each effect's material apart, as the
    source writes it. *)
Definition distinguishing_properties : Dict.t (list string) := [
  ("metallic", ["metalness: 0.9"; "roughness: 0.1"]);
  ("emissive", ["emissive: "; "emissiveIntensity: 0.3"]);
  ("floating", ["metalness: 0.2"; "roughness: 0.8"]);
  ("pulsing", ["metalness: 0.5"; "roughness: 0.3"]);
  ("rainbow", ["metalness: 0.3"; "roughness: 0.4"]);
  ("glass", ["transmission: 0.9"; "opacity: 0.1"; "transparent: true"]);
  ("wood", ["metalness: 0.0"; "roughness: 0.9"]);
  ("crystal", ["transmission: 0.7"; "opacity: 0.3"; "transparent: true"; "clearcoat: 1.0"]);
  ("plasma", ["emissive: "; "emissiveIntensity: 0.5"])
].

(** The target of the animation hook. *)
Definition animate_target : string := "object.userData.animate".

(** The hook statement both templates end with. *)
Definition animate_hook (animation : string) : string :=
  "object.userData.animate = () => { " ++ nl ++
  "    " ++ animation ++ nl ++
  "};".

(** The two phases of the corpus as the specification describes them: the
    cross product of shapes and colors, shape major, and the curated
    list. *)
Definition basic_phase (self : Trainer.ThreeJSTrainer)
  : list Trainer.Example :=
  flat_map
    (fun '(shape, geometry) =>
       map (fun '(color_name, color_hex) =>
              Trainer.basic_example shape geometry color_name color_hex)
         (Trainer.colors self))
    (Trainer.geometries self).

Definition advanced_phase (self : Trainer.ThreeJSTrainer)
  : list Trainer.Example :=
  map (Trainer.advanced_example self) Trainer.complex_objects.

(** ** Counting across a concatenation *)

(** Whether text put after [t] leaves it settled that [needle] starts
    [t] or does not: [needle] starts [t] already, or they differ at some
    position. *)
Definition settled (needle t : string) : bool :=
  starts_with needle t || negb (starts_with t needle).

(** No occurrence of [needle] begins inside [a] and ends after it. *)
Fixpoint no_overlap (needle a : string) : bool :=
  match a with
  | EmptyString => negb (starts_with needle EmptyString)
  | String _ a' => settled needle a && no_overlap needle a'
  end.

(** [y] begins with a character that [needle] does not have. *)
Definition starts_outside (needle y : string) : bool :=
  negb (starts_with needle EmptyString) &&
  match y with
  | EmptyString => false
  | String c _ => negb (mem_char c needle)
  end.

(** ** [json.dumps] on the data [main] and [save_training_data] write

    The encoder of the [json] module with its defaults
    ([ensure_ascii=True]), on the values these two functions pass to it:
    strings, and dictionaries and lists of them. *)

Module Json.

Definition hex_digit (n : nat) : ascii :=
  nth n ["0"; "1"; "2"; "3"; "4"; "5"; "6"; "7"; "8"; "9";
         "a"; "b"; "c"; "d"; "e"; "f"]%char "0"%char.

(** One character of a string: the backslash and the double quote are
    escaped, the five control characters with a short form take it, the
    other characters from the space to the tilde stay, and every other
    character becomes [\u] and four hexadecimal digits. *)
Definition escape_char (c : ascii) : string :=
  let n := nat_of_ascii c in
  if (n =? 92)%nat then "\\"
  else if (n =? 34)%nat then "\" ++ dquote
  else if (n =? 8)%nat then "\b"
  else if (n =? 12)%nat then "\f"
  else if (n =? 10)%nat then "\n"
  else if (n =? 13)%nat then "\r"
  else if (n =? 9)%nat then "\t"
  else if ((32 <=? n)%nat && (n <=? 126)%nat) then String c EmptyString
  else "\u00" ++ String (hex_digit (n / 16))
                   (String (hex_digit (n mod 16)) EmptyString).

Fixpoint escape (s : string) : string :=
  match s with
  | EmptyString => EmptyString
  | String c s' => escape_char c ++ escape s'
  end.

(** [json.dumps(s)] for a string [s]. *)
Definition dumps_str (s : string) : string := dquote ++ escape s ++ dquote.

(** [json.dumps] of a dictionary of strings, one line: the items in
    insertion order, [', '] between them and [': '] after each key. *)
Definition dumps_dict (d : list (string * string)) : string :=
  "{" ++ String.concat ", "
           (map (fun '(k, v) => dumps_str k ++ ": " ++ v) d) ++ "}".

(** [json.dumps] of a list whose items are already encoded. *)
Definition dumps_list (items : list string) : string :=
  "[" ++ String.concat ", " items ++ "]".

(** [json.dump(examples, f, indent=2)]: a list of dictionaries of strings
    with two spaces per level, a comma and a line break between items. *)
Definition dump_dict_indent (d : list (string * string)) : string :=
  match d with
  | [] => "{}"
  | _ =>
      "{" ++ nl ++ "    " ++
      String.concat ("," ++ nl ++ "    ")
        (map (fun '(k, v) => dumps_str k ++ ": " ++ dumps_str v) d) ++
      nl ++ "  }"
  end.

Definition dump_list_indent (items : list string) : string :=
  match items with
  | [] => "[]"
  | _ => "[" ++ nl ++ "  " ++ String.concat ("," ++ nl ++ "  ") items ++
         nl ++ "]"
  end.

(** A reader of an encoded string from after its opening quote: the
    string and the text after its closing quote. *)
Definition hex_value (c : ascii) : option nat :=
  let n := nat_of_ascii c in
  if ((48 <=? n)%nat && (n <=? 57)%nat) then Some (n - 48)%nat
  else if ((97 <=? n)%nat && (n <=? 102)%nat) then Some (n - 87)%nat
  else None.

Definition short_escape (e : ascii) : option ascii :=
  let n := nat_of_ascii e in
  if (n =? 92)%nat then Some "\"%char
  else if (n =? 34)%nat then Some "034"%char
  else if (n =? 98)%nat then Some "008"%char
  else if (n =? 102)%nat then Some "012"%char
  else if (n =? 110)%nat then Some "010"%char
  else if (n =? 114)%nat then Some "013"%char
  else if (n =? 116)%nat then Some "009"%char
  else None.

Definition push (c : ascii) (r : option (string * string))
  : option (string * string) :=
  match r with
  | Some (t, rest) => Some (String c t, rest)
  | None => None
  end.

Fixpoint read_string (s : string) : option (string * string) :=
  match s with
  | EmptyString => None
  | String c s1 =>
      if (nat_of_ascii c =? 34)%nat then Some (EmptyString, s1)
      else if (nat_of_ascii c =? 92)%nat then
        match s1 with
        | EmptyString => None
        | String e s2 =>
            if (nat_of_ascii e =? 117)%nat then
              match s2 with
              | String a (String b (String x (String y s3))) =>
                  match hex_value a, hex_value b, hex_value x, hex_value y with
                  | Some 0, Some 0, Some h, Some l =>
                      push (ascii_of_nat (16 * h + l)) (read_string s3)
                  | _, _, _, _ => None
                  end
              | _ => None
              end
            else
              match short_escape e with
              | Some ch => push ch (read_string s2)
              | None => None
              end
        end
      else push c (read_string s1)
  end.

End Json.

(** ** The two files [main] leaves behind *)

Module Output.

(** [json.dumps(item)] for an item of [fine_tune_data]. *)
Definition dumps_message (m : Trainer.Message) : string :=
  Json.dumps_dict [
    ("role", Json.dumps_str (Trainer.role m));
    ("content", Json.dumps_str (Trainer.content m))
  ].

Definition dumps_record (item : Trainer.FineTuneRecord) : string :=
  Json.dumps_dict [
    ("messages",
     Json.dumps_list (map dumps_message (Trainer.messages item)))
  ].

(** The loop of [main] that writes ['threejs_finetune_dataset.jsonl']:
    what the file holds once it is closed. *)
Definition finetune_file (fine_tune_data : list Trainer.FineTuneRecord)
  : string :=
  fold_left (fun f item => f ++ (dumps_record item ++ nl))
    fine_tune_data EmptyString.

(** What [save_training_data] writes with [json.dump(examples, f,
    indent=2)]. *)
Definition dump_example (example : Trainer.Example) : string :=
  Json.dump_dict_indent [
    ("prompt", Trainer.prompt example);
    ("code", Trainer.code example);
    ("category", Trainer.category example)
  ].

Definition corpus_file (examples : list Trainer.Example) : string :=
  Json.dump_list_indent (map dump_example examples).

(** The number of line breaks of a text. *)
Definition line_breaks (s : string) : nat := occurrences nl s.

End Output.

(** ** The answers on the wire

    What the calls of the handler put on the connection.  [end_headers]
    is the override of the class; [send_response] and [send_error] are
    those of the base class, and [send_error] ends its headers with
    [self.end_headers()]. *)

Module Wire.

(** What reaches the client. *)
Inductive line : Type :=
| StatusLine (code : nat)
| HeaderLine (name value : string)
| HeadersEnd
| Body (data : string).

Definition allow_origin : string := "Access-Control-Allow-Origin".

(** The override [end_headers]: one more header, then the end of the
    headers of the base class. *)
Definition end_headers : list line :=
  [HeaderLine "Access-Control-Allow-Origin" "*"; HeadersEnd].

Section Calls.

(** The base class: the headers [send_response] adds by itself, and the
    headers and the body [send_error] adds before it calls
    [self.end_headers()]. *)
Variable response_headers : nat -> list (string * string).
Variable error_headers : nat -> string -> list (string * string).
Variable error_body : nat -> string -> string.

Definition header_lines (hs : list (string * string)) : list line :=
  map (fun '(name, value) => HeaderLine name value) hs.

Definition send (c : Server.call) : list line :=
  match c with
  | Server.SendResponse code =>
      (StatusLine code :: header_lines (response_headers code))%list
  | Server.SendHeader name value => [HeaderLine name value]
  | Server.EndHeaders => end_headers
  | Server.Write data => [Body data]
  | Server.SendError code message =>
      (StatusLine code :: header_lines (response_headers code)
       ++ header_lines (error_headers code message)
       ++ end_headers ++ [Body (error_body code message)])%list
  end.

Definition on_wire (calls : list Server.call) : list line :=
  flat_map send calls.

End Calls.

(** How often a header of a given name is sent. *)
Definition header_count (name : string) (ls : list line) : nat :=
  length (filter (fun l => match l with
                           | HeaderLine n _ => n =? name
                           | _ => false
                           end) ls).

End Wire.

(** ** What the patterns of the validator ask for *)

(** White space only. *)
Definition Spaces (ws : string) : Prop := Re.all_match Re.Space ws.

(** [const name = new ctor] somewhere in [s], with white space after
    [const] and [new] and possibly around the equals sign. *)
Definition ConstNew (name ctor s : string) : Prop :=
  exists pre ws1 ws2 ws3 ws4 post,
    s = pre ++ "const" ++ ws1 ++ name ++ ws2 ++ "=" ++ ws3 ++
        "new" ++ ws4 ++ ctor ++ post
    /\ ws1 <> "" /\ ws4 <> ""
    /\ Spaces ws1 /\ Spaces ws2 /\ Spaces ws3 /\ Spaces ws4.

(** [target = true] somewhere in [s]. *)
Definition SetsTrue (target s : string) : Prop :=
  exists pre ws1 ws2 post,
    s = pre ++ target ++ ws1 ++ "=" ++ ws2 ++ "true" ++ post
    /\ Spaces ws1 /\ Spaces ws2.

(** [target =] somewhere in [s]. *)
Definition Assigns (target s : string) : Prop :=
  exists pre ws post,
    s = pre ++ target ++ ws ++ "=" ++ post /\ Spaces ws.

(** Whether a text is made of the characters from the space to the tilde
    only. *)
Fixpoint printable (s : string) : bool :=
  match s with
  | EmptyString => true
  | String c s' =>
      let n := nat_of_ascii c in
      if ((32 <=? n)%nat && (n <=? 126)%nat) then printable s' else false
  end.

(** The strings the two callers pass as geometry and color: the kinds of
    the shape table and the default kind of the curated loop, and the
    literals of the color table and of the curated list. *)
Definition enumerated_geometries : list string :=
  "BoxGeometry" :: Dict.values (Trainer.geometries Trainer.init).

Definition enumerated_colors : list string :=
  (Dict.values (Trainer.colors Trainer.init)
   ++ map (fun '(_, _, color, _) => color) Trainer.complex_objects)%list.

(** * Properties *)

Import Trainer.

(** ** Strings *)

Lemma append_assoc (a b c : string) : (a ++ b) ++ c = a ++ (b ++ c).
Proof.
  induction a as [|x a IH]; simpl; [reflexivity | now rewrite IH].
Qed.

Lemma append_nil_r (a : string) : a ++ "" = a.
Proof.
  induction a as [|x a IH]; simpl; [reflexivity | now rewrite IH].
Qed.

Lemma append_inv_head (a b c : string) : a ++ b = a ++ c -> b = c.
Proof.
  induction a as [|x a IH]; simpl; intros H; [exact H|].
  injection H as H. now apply IH.
Qed.

Lemma contains_intro (pre sub post s : string) :
  s = pre ++ sub ++ post -> Contains sub s.
Proof. intros ->. now exists pre, post. Qed.

Lemma contains_app_r (sub a s : string) :
  Contains sub s -> Contains sub (a ++ s).
Proof.
  intros (pre & post & ->). exists (a ++ pre), post.
  now rewrite append_assoc.
Qed.

Lemma contains_app_l (sub s b : string) :
  Contains sub s -> Contains sub (s ++ b).
Proof.
  intros (pre & post & ->). exists pre, (post ++ b).
  now rewrite !append_assoc.
Qed.

(** ** Dictionaries *)

Lemma dict_get_lookup {V : Type} (d : Dict.t V) (k : string) (default : V) :
  Dict.get d k default =
  match Dict.lookup d k with Some v => v | None => default end.
Proof.
  induction d as [|[k' v] d IH]; simpl; [reflexivity|].
  now destruct (k =? k').
Qed.

Lemma dict_lookup_none {V : Type} (d : Dict.t V) (k : string) :
  Dict.lookup d k = None <-> ~ In k (Dict.keys d).
Proof.
  induction d as [|[k' v] d IH]; simpl.
  - tauto.
  - destruct (String.eqb_spec k k') as [->|Hne].
    + split; [discriminate | intros H; exfalso; apply H; now left].
    + rewrite IH. split.
      * intros H [E|E]; [now apply Hne | now apply H].
      * intros H E. apply H. now right.
Qed.

Lemma dict_get_default {V : Type} (d : Dict.t V) (k : string) (default : V) :
  ~ In k (Dict.keys d) -> Dict.get d k default = default.
Proof.
  intros H. rewrite dict_get_lookup.
  apply dict_lookup_none in H. now rewrite H.
Qed.

Lemma dict_get_cases {V : Type} (d : Dict.t V) (k : string) (default : V) :
  In (Dict.get d k default) (default :: Dict.values d).
Proof.
  induction d as [|[k' v] d IH]; simpl; [now left|].
  destruct (k =? k'); [right; now left|].
  destruct IH as [IH|IH]; [now left | right; now right].
Qed.

(** ** The matcher finds exactly what the regex denotes *)

Section ReFacts.

Import Re.

Lemma match_star_spec (a : atom) (k : string -> bool) (s : string) :
  match_star a k s = true <->
  exists w t, s = w ++ t /\ all_match a w /\ k t = true.
Proof.
  induction s as [|c s IH]; simpl.
  - split.
    + intros H. exists "", "". now repeat split.
    + intros (w & t & E & _ & H).
      destruct w; [simpl in E; now subst t | discriminate].
  - split.
    + intros H. destruct (atom_matches a c) eqn:Hc.
      * destruct (match_star a k s) eqn:Hs.
        -- apply proj1 in IH. destruct (IH eq_refl) as (w & t & -> & Hw & Ht).
           exists (String c w), t. simpl. now repeat split.
        -- exists "", (String c s). now repeat split.
      * exists "", (String c s). now repeat split.
    + intros (w & t & E & Hw & Ht). destruct w as [|x w]; simpl in E.
      * subst t. rewrite Ht. now destruct (atom_matches a c), (match_star a k s).
      * injection E as -> ->. destruct Hw as [Hc Hw]. rewrite Hc.
        apply proj2 in IH. rewrite IH; [reflexivity|].
        now exists w, t.
Qed.

Lemma match_here_spec (r : regex) :
  forall s, match_here r s = true <->
            exists m rest, s = m ++ rest /\ Matches r m.
Proof.
  induction r as [|[a q] r IH]; intros s.
  - simpl. split; [|reflexivity].
    intros _. exists "", s. split; [reflexivity | constructor].
  - destruct q; simpl.
    + destruct s as [|c s].
      * split; [discriminate|].
        intros (m & rest & E & H). inversion H; subst. discriminate.
      * split.
        -- destruct (atom_matches a c) eqn:Hc; [|discriminate].
           intros H. apply IH in H. destruct H as (m & rest & -> & H).
           exists (String c m), rest. split; [reflexivity | now constructor].
        -- intros (m & rest & E & H). inversion H; subst.
           simpl in E. injection E as -> ->.
           match goal with Hc : atom_matches _ _ = true |- _ => rewrite Hc end.
           apply IH. eauto.
    + rewrite match_star_spec. split.
      * intros (w & t & -> & Hw & Ht). apply IH in Ht.
        destruct Ht as (m & rest & -> & H).
        exists (w ++ m), rest. rewrite append_assoc.
        split; [reflexivity | now constructor].
      * intros (m & rest & -> & H). inversion H; subst.
        match goal with |- context [(?w ++ ?m) ++ rest] =>
          exists w, (m ++ rest) end.
        rewrite append_assoc. repeat split; [assumption|].
        apply IH. eauto.
    + destruct s as [|c s].
      * split; [discriminate|].
        intros (m & rest & E & H). inversion H; subst. discriminate.
      * split.
        -- destruct (atom_matches a c) eqn:Hc; [|discriminate].
           rewrite match_star_spec.
           intros (w & t & -> & Hw & Ht). apply IH in Ht.
           destruct Ht as (m & rest & -> & H).
           exists (String c (w ++ m)), rest. simpl. rewrite append_assoc.
           split; [reflexivity | now constructor].
        -- intros (m & rest & E & H). inversion H; subst.
           simpl in E. injection E as -> ->.
           match goal with Hc : atom_matches _ _ = true |- _ => rewrite Hc end.
           rewrite match_star_spec.
           match goal with |- context [(?w ++ ?m) ++ rest] =>
             exists w, (m ++ rest) end.
           rewrite append_assoc. repeat split; [assumption|].
           apply IH. eauto.
Qed.

Lemma search_regex_spec (r : regex) (s : string) :
  search_regex r s = true <->
  exists pre m post, s = pre ++ m ++ post /\ Matches r m.
Proof.
  induction s as [|c s IH]; simpl.
  - destruct (match_here r "") eqn:H.
    + apply match_here_spec in H. destruct H as (m & rest & E & H).
      split; [|reflexivity]. intros _. now exists "", m, rest.
    + split; [discriminate|].
      intros (pre & m & post & E & Hm).
      destruct pre; [|discriminate]. simpl in E.
      rewrite <- H. apply match_here_spec. eauto.
  - destruct (match_here r (String c s)) eqn:H.
    + apply match_here_spec in H. destruct H as (m & rest & E & H).
      split; [|reflexivity]. intros _. now exists "", m, rest.
    + rewrite IH. split.
      * intros (pre & m & post & -> & Hm).
        now exists (String c pre), m, post.
      * intros (pre & m & post & E & Hm). destruct pre as [|x pre].
        -- simpl in E. exfalso.
           assert (match_here r (String c s) = true) as H'
             by (apply match_here_spec; eauto).
           congruence.
        -- simpl in E. injection E as -> ->. eauto.
Qed.

(** A match of a prefix of [m] is found wherever [m] is embedded. *)
Lemma search_regex_intro (r : regex) (pre m post : string) :
  match_here r m = true -> search_regex r (pre ++ m ++ post) = true.
Proof.
  intros H. apply match_here_spec in H. destruct H as (m' & rest & -> & H).
  apply search_regex_spec. exists pre, m', (rest ++ post).
  now rewrite append_assoc.
Qed.

Lemma search_regex_app_r (r : regex) (a s : string) :
  search_regex r s = true -> search_regex r (a ++ s) = true.
Proof.
  rewrite !search_regex_spec. intros (pre & m & post & -> & H).
  exists (a ++ pre), m, post. now rewrite append_assoc.
Qed.

End ReFacts.

Lemma starts_with_spec (p s : string) :
  starts_with p s = true <-> exists rest, s = p ++ rest.
Proof.
  revert s. induction p as [|a p IH]; intros s; simpl.
  - split; [intros _; now exists s | reflexivity].
  - destruct s as [|b s].
    + split; [discriminate | intros (rest & E); discriminate].
    + destruct (Ascii.eqb_spec a b) as [->|Hne].
      * rewrite IH. split; intros (rest & E); exists rest.
        -- now rewrite E.
        -- now injection E.
      * split; [discriminate|]. intros (rest & E). injection E as E _.
        now elim Hne.
Qed.

Lemma occurrences_contains (sub s : string) :
  (0 <? occurrences sub s)%nat = true -> Contains sub s.
Proof.
  induction s as [|c s IH]; simpl.
  - destruct (starts_with sub "") eqn:H; [|discriminate].
    intros _. apply starts_with_spec in H. destruct H as (rest & E).
    now exists "", rest.
  - destruct (starts_with sub (String c s)) eqn:H.
    + intros _. apply starts_with_spec in H. destruct H as (rest & E).
      now exists "", rest.
    + simpl. intros Hs. destruct (IH Hs) as (pre & post & ->).
      now exists (String c pre), post.
Qed.

Lemma occurrences_unfold (needle s : string) :
  occurrences needle s =
  ((if starts_with needle s then 1 else 0) +
   match s with
   | EmptyString => 0
   | String _ s' => occurrences needle s'
   end)%nat.
Proof. now destruct s. Qed.

Lemma contains_occurrences (sub s : string) :
  Contains sub s -> (0 < occurrences sub s)%nat.
Proof.
  intros (pre & post & ->). induction pre as [|c pre IH]; simpl.
  - rewrite occurrences_unfold.
    assert (starts_with sub (sub ++ post) = true) as ->
      by (apply starts_with_spec; eauto).
    lia.
  - simpl in IH. lia.
Qed.

(** ** [re.search] on the patterns of the validator *)

Lemma re_search_spec (pattern s : string) :
  Re.search pattern s = true <->
  exists r pre m post,
    Re.compile pattern = Some r /\ s = pre ++ m ++ post /\ Re.Matches r m.
Proof.
  unfold Re.search. destruct (Re.compile pattern) as [r|].
  - rewrite search_regex_spec. split.
    + intros (pre & m & post & E & H). now exists r, pre, m, post.
    + intros (r' & pre & m & post & E & Es & H). injection E as <-. eauto.
  - split; [discriminate|]. intros (r & _ & _ & _ & E & _). discriminate.
Qed.

(** The pattern matches the text [m], which starts [s]. *)
Lemma re_search_here (pattern m s : string) :
  starts_with m s = true ->
  match Re.compile pattern with
  | Some r => Re.match_here r m
  | None => false
  end = true ->
  Re.search pattern s = true.
Proof.
  intros Hs Hm. unfold Re.search.
  destruct (Re.compile pattern) as [r|]; [|discriminate].
  apply starts_with_spec in Hs. destruct Hs as (rest & ->).
  now apply (search_regex_intro r "" m rest).
Qed.

Lemma re_search_app_r (pattern a s : string) :
  Re.search pattern s = true -> Re.search pattern (a ++ s) = true.
Proof.
  unfold Re.search. destruct (Re.compile pattern) as [r|]; [|discriminate].
  apply search_regex_app_r.
Qed.

Lemma required_patterns_compile :
  Forall (fun pattern => Re.compile pattern <> None) required_patterns.
Proof. repeat constructor; discriminate. Qed.

(** *** What two of the patterns denote *)

Lemma matches_chr_inv (x : ascii) (r : Re.regex) (m : string) :
  Re.Matches ((Re.Chr x, Re.One) :: r) m ->
  exists m', m = String x m' /\ Re.Matches r m'.
Proof.
  intros H. inversion H as [|a c r' s Hc Hs| |]; subst.
  apply Ascii.eqb_eq in Hc. subst. eauto.
Qed.

Lemma matches_star_inv (a : Re.atom) (r : Re.regex) (m : string) :
  Re.Matches ((a, Re.ZeroOrMore) :: r) m ->
  exists w m', m = w ++ m' /\ Re.all_match a w /\ Re.Matches r m'.
Proof. intros H. inversion H; subst. eauto. Qed.

Lemma matches_plus_inv (a : Re.atom) (r : Re.regex) (m : string) :
  Re.Matches ((a, Re.OneOrMore) :: r) m ->
  exists w m', m = w ++ m' /\ w <> "" /\ Re.all_match a w /\ Re.Matches r m'.
Proof.
  intros H. inversion H as [| | |a' c w r' s Hc Hw Hs]; subst.
  exists (String c w), s. repeat split; [discriminate | assumption..].
Qed.

Lemma matches_nil_inv (m : string) : Re.Matches [] m -> m = "".
Proof. intros H. now inversion H. Qed.

Lemma matches_plus_intro (a : Re.atom) (r : Re.regex) (w m : string) :
  w <> "" -> Re.all_match a w -> Re.Matches r m ->
  Re.Matches ((a, Re.OneOrMore) :: r) (w ++ m).
Proof.
  intros Hne Hw Hm. destruct w as [|c w]; [now elim Hne|].
  destruct Hw as [Hc Hw]. simpl. now constructor.
Qed.

Ltac invert_matches H :=
  repeat first
    [ apply matches_chr_inv in H;
      let m := fresh "m" in destruct H as (m & -> & H)
    | apply matches_star_inv in H;
      let w := fresh "ws" in let m := fresh "m" in
      let Hw := fresh "Hws" in destruct H as (w & m & -> & Hw & H)
    | apply matches_plus_inv in H;
      let w := fresh "ws" in let m := fresh "m" in
      let Hn := fresh "Hne" in let Hw := fresh "Hws" in
      destruct H as (w & m & -> & Hn & Hw & H)
    | apply matches_nil_inv in H; subst ].

(** Bring both sides of an equation between concatenations to one form. *)
Ltac string_nf := repeat (progress (simpl; rewrite ?append_assoc)).

Ltac build_matches :=
  repeat first
    [ apply Re.M_nil
    | apply Re.M_one; [reflexivity|]
    | apply Re.M_star; [assumption|]
    | apply matches_plus_intro; [assumption | assumption |] ].

(** The sixth pattern: the hook target, white space, the equals sign. *)
Lemma animate_pattern_denotes (s : string) :
  Re.search "object\.userData\.animate\s*=" s = true <->
  exists pre ws post,
    s = pre ++ "object.userData.animate" ++ ws ++ "=" ++ post
    /\ Re.all_match Re.Space ws.
Proof.
  rewrite re_search_spec. split.
  - intros (r & pre & m & post & Hr & -> & Hm).
    vm_compute in Hr. injection Hr as <-.
    invert_matches Hm.
    exists pre, ws, post.
    split; [|assumption]. simpl. rewrite !append_assoc. reflexivity.
  - intros (pre & ws & post & -> & Hws).
    eexists. exists pre, ("object.userData.animate" ++ ws ++ "="), post.
    split; [reflexivity|]. split.
    + simpl. rewrite !append_assoc. reflexivity.
    + simpl. build_matches.
Qed.

(** The first pattern: [const], [geometry], [=], [new] and [THREE.], with
    white space required after [const] and [new] and allowed around the
    equals sign. *)
Lemma geometry_pattern_denotes (s : string) :
  Re.search "const\s+geometry\s*=\s*new\s+THREE\." s = true <->
  exists pre ws1 ws2 ws3 ws4 post,
    s = pre ++ "const" ++ ws1 ++ "geometry" ++ ws2 ++ "=" ++ ws3 ++
        "new" ++ ws4 ++ "THREE." ++ post
    /\ ws1 <> "" /\ ws4 <> ""
    /\ Re.all_match Re.Space ws1 /\ Re.all_match Re.Space ws2
    /\ Re.all_match Re.Space ws3 /\ Re.all_match Re.Space ws4.
Proof.
  rewrite re_search_spec. split.
  - intros (r & pre & m & post & Hr & -> & Hm).
    vm_compute in Hr. injection Hr as <-.
    invert_matches Hm.
    exists pre, ws, ws0, ws1, ws2, post.
    split; [|now repeat split]. string_nf. reflexivity.
  - intros (pre & ws1 & ws2 & ws3 & ws4 & post & -> & H1 & H4 & A1 & A2 & A3 & A4).
    eexists.
    exists pre,
      ("const" ++ ws1 ++ "geometry" ++ ws2 ++ "=" ++ ws3 ++
       "new" ++ ws4 ++ "THREE."), post.
    split; [reflexivity|]. split.
    + string_nf. reflexivity.
    + simpl. build_matches.
Qed.

(** The loop returns the conjunction of the searches. *)
Lemma validate_loop_forallb (patterns : list string) (code : string) :
  validate_loop patterns code =
  forallb (fun pattern => Re.search pattern code) patterns.
Proof.
  induction patterns as [|p ps IH]; simpl; [reflexivity|].
  rewrite IH. now destruct (Re.search p code).
Qed.

Lemma validate_loop_true (patterns : list string) (code : string) :
  validate_loop patterns code = true <->
  forall pattern, In pattern patterns -> Re.search pattern code = true.
Proof. rewrite validate_loop_forallb. apply forallb_forall. Qed.

(** The loop stops at the first pattern not found: the patterns after it
    play no part. *)
Lemma validate_loop_short_circuit (before after : list string)
    (pattern code : string) :
  Re.search pattern code = false ->
  validate_loop (before ++ pattern :: after)%list code = false.
Proof.
  intros H. induction before as [|p ps IH]; simpl.
  - now rewrite H.
  - now destruct (Re.search p code).
Qed.

(** ** The templates *)

Ltac found_at m := apply (@re_search_here _ m); reflexivity.

(** Skip the text in front of the common tail of the templates. *)
Ltac skip_to_mesh :=
  repeat lazymatch goal with
         | |- Re.search _ (mesh_and_hook _) = true => fail
         | |- Re.search _ (_ ++ _) = true => apply re_search_app_r
         end.

(** The four patterns about [object] are found in the common tail. *)
Lemma mesh_and_hook_patterns (animation pattern : string) :
  In pattern (skipn 2 required_patterns) ->
  Re.search pattern (mesh_and_hook animation) = true.
Proof.
  intros Hin. simpl in Hin. unfold mesh_and_hook.
  destruct Hin as [<-|[<-|[<-|[<-|[]]]]].
  - found_at "const object = new THREE.Mesh".
  - do 2 apply re_search_app_r. found_at "object.castShadow = true".
  - do 4 apply re_search_app_r. found_at "object.receiveShadow = true".
  - do 6 apply re_search_app_r. found_at "object.userData.animate =".
Qed.

Lemma generate_code_template_valid (shape geometry color color_name : string) :
  validate_generated_code
    (generate_code_template shape geometry color color_name) = true.
Proof.
  apply validate_loop_true. intros pattern Hin.
  unfold generate_code_template.
  destruct Hin as [<-|[<-|Hin]].
  - found_at "const geometry = new THREE.".
  - do 6 apply re_search_app_r. found_at "const material = new THREE.".
  - skip_to_mesh. now apply mesh_and_hook_patterns.
Qed.

Lemma advanced_strategy_new (color effect : string) :
  exists body animation,
    advanced_strategy color effect = ("new THREE." ++ body, animation).
Proof.
  unfold advanced_strategy.
  repeat match goal with
         | |- context [if ?b then _ else _] => destruct b
         end; eexists; eexists; reflexivity.
Qed.

Lemma generate_advanced_code_valid (shape geometry color effect : string) :
  validate_generated_code
    (generate_advanced_code shape geometry color effect) = true.
Proof.
  apply validate_loop_true. intros pattern Hin.
  unfold generate_advanced_code.
  destruct (advanced_strategy_new color effect) as (body & animation & ->).
  destruct Hin as [<-|[<-|Hin]].
  - found_at "const geometry = new THREE.".
  - do 6 apply re_search_app_r. found_at "const material = new THREE.".
  - skip_to_mesh. now apply mesh_and_hook_patterns.
Qed.

(** ** The generated fragments pass the validator *)

(** C1: for every shape of the shape table and every color of the color
    table, the fragment of [generate_code_template] is accepted by
    [validate_generated_code]; the fragment for sphere and gold constructs
    a [SphereGeometry] with the parameters [1.5, 32, 32], has the color
    literal [0xffd700], sets [castShadow] and [receiveShadow] to [true]
    and assigns [userData.animate]. *)
Theorem template_fragments_validate :
  Forall (fun '(shape, geometry) =>
    Forall (fun '(color_name, color_hex) =>
      validate_generated_code
        (generate_code_template shape geometry color_hex color_name) = true)
      (colors init))
    (geometries init)
  /\ (let fragment :=
        generate_code_template "sphere"
          (Dict.get (geometries init) "sphere" "")
          (Dict.get (colors init) "gold" "") "gold" in
      Contains "new THREE.SphereGeometry(1.5, 32, 32)" fragment
      /\ Contains "color: 0xffd700" fragment
      /\ Contains "object.castShadow = true" fragment
      /\ Contains "object.receiveShadow = true" fragment
      /\ Contains "object.userData.animate =" fragment).
Proof.
  split.
  - apply Forall_forall. intros [shape geometry] _.
    apply Forall_forall. intros [color_name color_hex] _.
    apply generate_code_template_valid.
  - repeat split; apply occurrences_contains; vm_compute; reflexivity.
Qed.

(** ** The validator *)

(** C3: [validate_generated_code] returns true exactly when each of the
    six required patterns matches somewhere in the fragment; a fragment in
    which one of them has no match is rejected, as is each fragment made
    of the required statements but one. *)
Theorem validate_iff_all_six_patterns (fragment : string) :
  length required_patterns = 6
  /\ (validate_generated_code fragment = true <->
      forall pattern, In pattern required_patterns ->
        exists r pre m post,
          Re.compile pattern = Some r
          /\ fragment = pre ++ m ++ post /\ Re.Matches r m)
  /\ (forall pattern, In pattern required_patterns ->
        Re.search pattern fragment = false ->
        validate_generated_code fragment = false)
  /\ validate_generated_code (String.concat nl six_statements) = true
  /\ Forall (fun i => validate_generated_code (fragment_without i) = false)
       (seq 0 6).
Proof.
  split; [reflexivity|]. split; [|split; [|split]].
  - unfold validate_generated_code. rewrite validate_loop_true.
    split; intros H pattern Hin.
    + apply re_search_spec. now apply H.
    + apply re_search_spec. now apply H.
  - intros pattern Hin Hno. apply in_split in Hin.
    destruct Hin as (before & after & E).
    unfold validate_generated_code. rewrite E.
    now apply validate_loop_short_circuit.
  - vm_compute. reflexivity.
  - repeat constructor.
Qed.

(** ** Geometry parameters *)

Lemma dict_get_in {V : Type} (d : Dict.t V) (k : string) (v default : V) :
  NoDup (Dict.keys d) -> In (k, v) d -> Dict.get d k default = v.
Proof.
  induction d as [|[k' v'] d IH]; simpl; [tauto|].
  intros Hnd [E|Hin].
  - injection E as -> ->. now rewrite String.eqb_refl.
  - inversion Hnd as [|? ? Hk Hd]; subst.
    destruct (String.eqb_spec k k') as [->|_].
    + exfalso. apply Hk. change k' with (fst (k', v)). now apply in_map.
    + now apply IH.
Qed.

Lemma template_params_nodup : NoDup (Dict.keys template_params).
Proof.
  unfold template_params, Dict.keys. simpl.
  repeat (constructor; [simpl; intuition discriminate|]). constructor.
Qed.

(** Both templates open with the geometry statement. *)
Lemma generate_code_template_geometry
    (shape geometry color color_name : string) :
  starts_with
    ("const geometry = new THREE." ++ geometry ++
     "(" ++ template_param geometry ++ ");")
    (generate_code_template shape geometry color color_name) = true.
Proof.
  apply starts_with_spec. unfold generate_code_template. eexists.
  rewrite !append_assoc. reflexivity.
Qed.

Lemma generate_advanced_code_geometry
    (shape geometry color effect : string) :
  starts_with
    ("const geometry = new THREE." ++ geometry ++
     "(" ++ advanced_param geometry ++ ");")
    (generate_advanced_code shape geometry color effect) = true.
Proof.
  apply starts_with_spec. unfold generate_advanced_code.
  destruct (advanced_strategy color effect) as [material animation].
  eexists. rewrite !append_assoc. reflexivity.
Qed.

(** C5: for a geometry key that is not in the parameter table of
    [generate_code_template], the parameters are the default ['1, 1, 1'];
    for a key of the table they are the string the table gives it.  The
    lookup is a total function: there is no error case. *)
Theorem geometry_param_resolution (geometry : string) :
  (~ In geometry (Dict.keys template_params) ->
   template_param geometry = "1, 1, 1")
  /\ (forall param, In (geometry, param) template_params ->
        template_param geometry = param)
  /\ (forall shape color color_name,
        starts_with
          ("const geometry = new THREE." ++ geometry ++
           "(" ++ template_param geometry ++ ");")
          (generate_code_template shape geometry color color_name) = true).
Proof.
  split; [|split].
  - apply dict_get_default.
  - intros param. apply dict_get_in, template_params_nodup.
  - intros shape color color_name. apply generate_code_template_geometry.
Qed.

Lemma geometry_param_resolution_witness :
  template_param "LatheGeometry" = "1, 1, 1"
  /\ template_param "PlaneGeometry" = "3, 3".
Proof.
  split.
  - apply (proj1 (geometry_param_resolution "LatheGeometry")).
    simpl. intuition discriminate.
  - apply (proj1 (proj2 (geometry_param_resolution "PlaneGeometry"))).
    simpl. tauto.
Defined.

(** The default of one table and a bespoke string of the other. *)
Lemma advanced_params_incl : incl advanced_params template_params.
Proof.
  intros kv Hin. simpl in Hin.
  repeat (destruct Hin as [<-|Hin]; [simpl; tauto|]). destruct Hin.
Qed.

Ltac agree_or_not :=
  split; intros H;
  first [ simpl; tauto
        | reflexivity
        | vm_compute in H; discriminate H
        | exfalso; simpl in H; intuition discriminate ].

Ltac shared_or_fallback :=
  first [ left; simpl; tauto
        | right; split; [reflexivity|]; split; [simpl; tauto|];
          split; [discriminate|]; intros color effect color_name;
          split;
          [ apply generate_advanced_code_geometry
          | apply generate_code_template_geometry ] ].

(** C10: the two templates look their geometry parameters up in two
    tables that agree on the six kinds Sphere, Box, Cylinder, Cone, Torus
    and Octahedron only.  For the shapes of the five other kinds (plane,
    ring, dodecahedron, icosahedron, tetrahedron) [generate_advanced_code]
    falls back to ['1, 1, 1'] where [generate_code_template] has the
    parameters of the kind, ['3, 3'] for [PlaneGeometry]. *)
Theorem param_tables_agree_on_six_kinds :
  Dict.keys advanced_params = shared_geometries
  /\ incl advanced_params template_params
  /\ (forall geometry, In geometry (Dict.keys template_params) ->
        (template_param geometry = advanced_param geometry <->
         In geometry shared_geometries))
  /\ map fst (filter (fun '(_, geometry) =>
                        negb (existsb (String.eqb geometry) shared_geometries))
                (geometries init))
     = ["plane"; "ring"; "dodecahedron"; "icosahedron"; "tetrahedron"]
  /\ Forall (fun '(shape, geometry) =>
       In geometry shared_geometries
       \/ (advanced_param geometry = "1, 1, 1"
           /\ In (geometry, template_param geometry) template_params
           /\ template_param geometry <> "1, 1, 1"
           /\ forall color effect color_name,
                starts_with
                  ("const geometry = new THREE." ++ geometry ++ "(1, 1, 1);")
                  (generate_advanced_code shape geometry color effect) = true
                /\ starts_with
                  ("const geometry = new THREE." ++ geometry ++
                   "(" ++ template_param geometry ++ ");")
                  (generate_code_template shape geometry color color_name)
                   = true))
       (geometries init)
  /\ template_param "PlaneGeometry" = "3, 3"
  /\ advanced_param "PlaneGeometry" = "1, 1, 1".
Proof.
  split; [reflexivity|]. split; [exact advanced_params_incl|].
  split; [|split; [reflexivity|split; [|split; reflexivity]]].
  - intros geometry Hin. simpl in Hin.
    repeat (destruct Hin as [<-|Hin]; [agree_or_not|]). destruct Hin.
  - repeat (constructor; [shared_or_fallback|]). constructor.
Qed.

Lemma param_tables_agree_on_six_kinds_witness :
  (template_param "TorusGeometry" = advanced_param "TorusGeometry" <->
   In "TorusGeometry" shared_geometries)
  /\ (template_param "RingGeometry" = advanced_param "RingGeometry" <->
      In "RingGeometry" shared_geometries).
Proof.
  split.
  - apply (proj1 (proj2 (proj2 param_tables_agree_on_six_kinds))).
    simpl. tauto.
  - apply (proj1 (proj2 (proj2 param_tables_agree_on_six_kinds))).
    simpl. tauto.
Defined.

(** ** Effects *)

Lemma eqb_of_not_in (x : string) (l : list string) :
  ~ In x l -> Forall (fun y => (x =? y) = false) l.
Proof.
  intros H. apply Forall_forall. intros y Hy.
  apply String.eqb_neq. intros ->. now apply H.
Qed.

(** C4: for an effect tag that is none of the nine recognized ones,
    [generate_advanced_code] takes the default strategy: a
    [MeshStandardMaterial] with metalness 0.3 and roughness 0.4 and the
    rotation about the x and y axes.  The function is total: there is no
    input for which it fails. *)
Theorem unknown_effect_default_strategy
    (shape geometry color effect : string) :
  ~ In effect recognized_effects ->
  advanced_strategy color effect = (default_material color, default_animation)
  /\ generate_advanced_code shape geometry color effect =
     "const geometry = new THREE." ++ geometry ++
       "(" ++ advanced_param geometry ++ ");" ++ nl ++
     "const material = new THREE.MeshStandardMaterial({ color: " ++ color ++
       ", metalness: 0.3, roughness: 0.4 });" ++ nl ++
     mesh_and_hook "object.rotation.x += 0.01; object.rotation.y += 0.01;".
Proof.
  intros Hno. apply eqb_of_not_in in Hno.
  assert (advanced_strategy color effect
          = (default_material color, default_animation)) as E.
  { unfold advanced_strategy, recognized_effects in *.
    repeat match goal with
           | H : Forall _ (_ :: _) |- _ =>
               let E := fresh "E" in
               inversion H as [|? ? E ?]; subst; clear H; rewrite E
           end.
    reflexivity. }
  split; [exact E|].
  unfold generate_advanced_code. rewrite E. unfold default_material.
  rewrite !append_assoc. reflexivity.
Qed.

Lemma unknown_effect_default_strategy_witness :
  ~ In "holographic" recognized_effects
  /\ advanced_strategy "0x123456" "holographic"
     = (default_material "0x123456", default_animation).
Proof.
  assert (~ In "holographic" recognized_effects) as Hno
    by (simpl; intuition discriminate).
  split; [exact Hno|].
  exact (proj1 (unknown_effect_default_strategy
                  "cube" "BoxGeometry" "0x123456" "holographic" Hno)).
Defined.

Ltac in_literal := apply occurrences_contains; vm_compute; reflexivity.

(** Find a property in a material expression, whose color is not known. *)
Ltac find_property :=
  solve [ in_literal
        | apply contains_app_l; in_literal
        | apply contains_app_r; find_property ].

(** Take the branch of the [if]/[elif] chain a given tag selects. *)
Ltac pick_strategy :=
  cbv beta iota delta
    [advanced_strategy String.eqb Ascii.eqb Bool.eqb fst snd].

(** Compare two expressions from their first characters on. *)
Ltac peel H :=
  repeat first [ discriminate H
               | apply append_inv_head in H
               | progress simpl in H
               | injection H as H ].

Lemma recognized_materials_contain (color : string) :
  Forall (fun effect =>
    Forall (fun property =>
              Contains property (fst (advanced_strategy color effect)))
      (Dict.get distinguishing_properties effect []))
    recognized_effects.
Proof.
  repeat (constructor;
          [pick_strategy; simpl Dict.get;
           repeat (constructor; [find_property|]); constructor|]).
  constructor.
Qed.

Lemma recognized_materials_differ (color e1 e2 : string) :
  In e1 recognized_effects -> In e2 recognized_effects ->
  fst (advanced_strategy color e1) = fst (advanced_strategy color e2) ->
  e1 = e2.
Proof.
  intros H1 H2. simpl in H1, H2.
  repeat (destruct H1 as [<-|H1]); try contradiction;
    repeat (destruct H2 as [<-|H2]); try contradiction;
    pick_strategy; intros H; try reflexivity; exfalso; peel H.
Qed.

(** C6: for each of the nine recognized effect tags the material
    expression of [generate_advanced_code] contains the parameter set of
    that effect, and these expressions tell the nine tags apart.  For
    glass it has a transmission property and [transparent: true]; for
    metallic its metalness is a literal of value at least 0.9. *)
Theorem recognized_effect_materials (color : string) :
  Dict.keys distinguishing_properties = recognized_effects
  /\ Forall (fun effect =>
       Forall (fun property =>
                 Contains property (fst (advanced_strategy color effect)))
         (Dict.get distinguishing_properties effect []))
       recognized_effects
  /\ (forall e1 e2, In e1 recognized_effects -> In e2 recognized_effects ->
        fst (advanced_strategy color e1) = fst (advanced_strategy color e2) ->
        e1 = e2)
  /\ Contains "transmission: " (fst (advanced_strategy color "glass"))
  /\ Contains "transparent: true" (fst (advanced_strategy color "glass"))
  /\ (exists lit q,
        fst (advanced_strategy color "metallic") =
          "new THREE.MeshStandardMaterial({ color: " ++ color ++
          ", metalness: " ++ lit ++ ", roughness: 0.1 })"
        /\ decimal_value lit = Some q
        /\ (9 # 10 <= q)%Q)
  /\ (forall shape geometry effect,
        Contains ("const material = " ++ fst (advanced_strategy color effect) ++ ";")
          (generate_advanced_code shape geometry color effect)).
Proof.
  split; [reflexivity|].
  split; [apply recognized_materials_contain|].
  split; [apply recognized_materials_differ|].
  split; [pick_strategy; find_property|].
  split; [pick_strategy; find_property|].
  split.
  - exists "0.9", (9 # 10)%Q. split; [reflexivity|].
    split; [reflexivity | apply Qle_refl].
  - intros shape geometry effect. unfold generate_advanced_code.
    destruct (advanced_strategy color effect) as [material animation].
    simpl fst.
    exists ("const geometry = new THREE." ++ geometry ++
            "(" ++ advanced_param geometry ++ ");" ++ nl),
           (nl ++ mesh_and_hook animation).
    rewrite !append_assoc. reflexivity.
Qed.

(** ** The corpus *)

Section Loops.

Context {A B : Type}.

(** A loop that appends one item per element is a [map]. *)
Lemma fold_left_append_map (body : list B -> A -> list B) (f : A -> B)
    (l : list A) (acc : list B) :
  (forall acc x, body acc x = (acc ++ [f x])%list) ->
  fold_left body l acc = (acc ++ map f l)%list.
Proof.
  intros Hbody. revert acc. induction l as [|x l IH]; intros acc; simpl.
  - now rewrite app_nil_r.
  - rewrite Hbody, IH, <- app_assoc. reflexivity.
Qed.

(** A loop whose body appends a list per element is a [flat_map]. *)
Lemma fold_left_append_flat_map (body : list B -> A -> list B)
    (f : A -> list B) (l : list A) (acc : list B) :
  (forall acc x, body acc x = (acc ++ f x)%list) ->
  fold_left body l acc = (acc ++ flat_map f l)%list.
Proof.
  intros Hbody. revert acc. induction l as [|x l IH]; intros acc; simpl.
  - now rewrite app_nil_r.
  - rewrite Hbody, IH, <- app_assoc. reflexivity.
Qed.

(** The element at row [i] and column [j] of a [flat_map] with rows of
    one length. *)
Lemma nth_error_flat_map_rows (f : A -> list B) (n : nat) (l : list A) :
  (forall x, length (f x) = n) ->
  forall i j x, nth_error l i = Some x -> (j < n)%nat ->
    nth_error (flat_map f l) (i * n + j) = nth_error (f x) j.
Proof.
  intros Hlen. induction l as [|y l IH]; intros i j x Hi Hj.
  - destruct i; discriminate.
  - destruct i as [|i]; simpl in *.
    + injection Hi as ->. rewrite nth_error_app1; [reflexivity|].
      rewrite Hlen. exact Hj.
    + rewrite nth_error_app2; rewrite Hlen; [|lia].
      replace (n + i * n + j - n)%nat with (i * n + j)%nat by lia.
      now apply IH.
Qed.

Lemma length_flat_map_rows (f : A -> list B) (n : nat) (l : list A) :
  (forall x, length (f x) = n) ->
  length (flat_map f l) = (length l * n)%nat.
Proof.
  intros Hlen. induction l as [|y l IH]; simpl; [reflexivity|].
  now rewrite length_app, Hlen, IH.
Qed.

End Loops.

(** The loops of [generate_training_examples] build the two phases. *)
Lemma generate_training_examples_phases (self : ThreeJSTrainer) :
  generate_training_examples self
  = (basic_phase self ++ advanced_phase self)%list.
Proof.
  unfold generate_training_examples, basic_phase, advanced_phase.
  rewrite fold_left_append_map with (f := advanced_example self)
    by reflexivity.
  f_equal.
  rewrite fold_left_append_flat_map
    with (f := fun '(shape, geometry) =>
                 map (fun '(color_name, color_hex) =>
                        basic_example shape geometry color_name color_hex)
                   (colors self)).
  - reflexivity.
  - intros acc [shape geometry].
    apply fold_left_append_map. now intros acc' [color_name color_hex].
Qed.

Lemma basic_phase_length (self : ThreeJSTrainer) :
  length (basic_phase self)
  = (length (geometries self) * length (colors self))%nat.
Proof.
  unfold basic_phase. apply length_flat_map_rows.
  intros [shape geometry]. apply length_map.
Qed.

Lemma basic_phase_category (self : ThreeJSTrainer) :
  Forall (fun e => category e = "basic_shapes") (basic_phase self).
Proof.
  apply Forall_forall. intros e He. unfold basic_phase in He.
  apply in_flat_map in He. destruct He as ([shape geometry] & _ & He).
  apply in_map_iff in He. destruct He as ([color_name color_hex] & <- & _).
  reflexivity.
Qed.

Lemma advanced_phase_category (self : ThreeJSTrainer) :
  Forall (fun e => category e = "advanced_objects") (advanced_phase self).
Proof.
  apply Forall_forall. intros e He. unfold advanced_phase in He.
  apply in_map_iff in He. destruct He as ([[[p shape] color] effect] & <- & _).
  reflexivity.
Qed.

Lemma basic_phase_nth (self : ThreeJSTrainer) (i j : nat)
    (shape geometry color_name color_hex : string) :
  nth_error (geometries self) i = Some (shape, geometry) ->
  nth_error (colors self) j = Some (color_name, color_hex) ->
  nth_error (basic_phase self) (i * length (colors self) + j)
  = Some (basic_example shape geometry color_name color_hex).
Proof.
  intros Hi Hj. unfold basic_phase.
  rewrite nth_error_flat_map_rows with (x := (shape, geometry)).
  - now rewrite nth_error_map, Hj.
  - intros [s g]. apply length_map.
  - exact Hi.
  - apply nth_error_Some. congruence.
Qed.

Lemma generate_training_examples_tables (t1 t2 : ThreeJSTrainer) :
  geometries t1 = geometries t2 -> colors t1 = colors t2 ->
  generate_training_examples t1 = generate_training_examples t2.
Proof.
  intros Hg Hc. rewrite !generate_training_examples_phases.
  unfold basic_phase, advanced_phase. rewrite Hg, Hc. f_equal.
  apply map_ext. intros [[[p shape] color] effect].
  unfold advanced_example. now rewrite Hg.
Qed.

(** C2: [generate_training_examples] returns the 11 x 10 = 110 examples
    tagged [basic_shapes], one per shape and color in the order of the
    tables with the shape as the outer loop, and after them the 10
    examples tagged [advanced_objects] in the order of the curated list:
    120 in all.  The result depends on the two tables only, so two calls
    with the same tables return the same sequence. *)
Theorem corpus_counts_and_order :
  let examples := generate_training_examples init in
  (exists basic advanced,
     examples = (basic ++ advanced)%list
     /\ length basic = (length (geometries init) * length (colors init))%nat
     /\ length basic = 110
     /\ Forall (fun e => category e = "basic_shapes") basic
     /\ length advanced = length complex_objects
     /\ length advanced = 10
     /\ Forall (fun e => category e = "advanced_objects") advanced)
  /\ length examples = 120
  /\ (forall i j shape geometry color_name color_hex,
        nth_error (geometries init) i = Some (shape, geometry) ->
        nth_error (colors init) j = Some (color_name, color_hex) ->
        nth_error examples (i * 10 + j)
        = Some (basic_example shape geometry color_name color_hex))
  /\ (forall k o,
        nth_error complex_objects k = Some o ->
        nth_error examples (110 + k) = Some (advanced_example init o))
  /\ (forall t1 t2,
        geometries t1 = geometries t2 -> colors t1 = colors t2 ->
        generate_training_examples t1 = generate_training_examples t2).
Proof.
  intros examples. subst examples.
  rewrite generate_training_examples_phases.
  assert (length (basic_phase init) = 110) as Hlen
    by (rewrite basic_phase_length; reflexivity).
  split; [|split; [|split; [|split]]].
  - exists (basic_phase init), (advanced_phase init).
    split; [reflexivity|].
    split; [apply basic_phase_length|].
    split; [exact Hlen|].
    split; [apply basic_phase_category|].
    split; [apply length_map|].
    split; [reflexivity | apply advanced_phase_category].
  - rewrite length_app, Hlen. reflexivity.
  - intros i j shape geometry color_name color_hex Hi Hj.
    assert (i * 10 + j < 110)%nat as Hlt.
    { assert (i < 11)%nat
        by (apply (nth_error_Some (geometries init)); congruence).
      assert (j < 10)%nat
        by (apply (nth_error_Some (colors init)); congruence).
      lia. }
    rewrite nth_error_app1 by (rewrite Hlen; exact Hlt).
    now apply (basic_phase_nth init i j).
  - intros k o Hk.
    rewrite nth_error_app2 by (rewrite Hlen; lia).
    rewrite Hlen. replace (110 + k - 110)%nat with k by lia.
    unfold advanced_phase. now rewrite nth_error_map, Hk.
  - apply generate_training_examples_tables.
Qed.

Lemma corpus_counts_and_order_witness :
  nth_error (generate_training_examples init) 58
  = Some (basic_example "plane" "PlaneGeometry" "gold" "0xffd700")
  /\ nth_error (generate_training_examples init) 115
     = Some (advanced_example init
               ("transparent glass sphere", "sphere", "0x88ccff", "glass")).
Proof.
  split.
  - apply (proj1 (proj2 (proj2 corpus_counts_and_order)) 5 8);
      reflexivity.
  - apply (proj1 (proj2 (proj2 (proj2 corpus_counts_and_order))) 5).
    reflexivity.
Defined.

(** ** The fine-tune records *)

Lemma build_fine_tune_data_map (training_data : list Example) :
  build_fine_tune_data training_data = map fine_tune_record training_data.
Proof.
  unfold build_fine_tune_data.
  now rewrite fold_left_append_map with (f := fine_tune_record).
Qed.

(** C8: [main] builds one fine-tune record per example, in the order of
    the examples, and the content of the assistant message of the record
    at a position is the code of the example at that position, as it
    is. *)
Theorem fine_tune_records_round_trip :
  let examples := main_training_data main in
  let records := main_fine_tune_data main in
  examples = generate_training_examples init
  /\ records = build_fine_tune_data examples
  /\ length records = length examples
  /\ map (content_of_role "assistant") records
     = map (fun example => Some (code example)) examples
  /\ (forall i example,
        nth_error examples i = Some example ->
        exists record,
          nth_error records i = Some record
          /\ map role (messages record) = ["system"; "user"; "assistant"]
          /\ content_of_role "assistant" record = Some (code example)
          /\ content_of_role "user" record
             = Some ("Create Three.js code for: " ++ prompt example))
  /\ (forall training_data,
        length (build_fine_tune_data training_data) = length training_data
        /\ map (content_of_role "assistant")
             (build_fine_tune_data training_data)
           = map (fun example => Some (code example)) training_data).
Proof.
  intros examples records. subst examples records.
  unfold main. cbn [main_training_data main_fine_tune_data].
  unfold save_training_data.
  split; [reflexivity|]. split; [reflexivity|].
  rewrite build_fine_tune_data_map.
  split; [apply length_map|].
  split; [rewrite map_map; reflexivity|].
  split.
  - intros i example Hi. exists (fine_tune_record example).
    rewrite nth_error_map, Hi. repeat split.
  - intros training_data. rewrite build_fine_tune_data_map.
    split; [apply length_map | rewrite map_map; reflexivity].
Qed.

Lemma fine_tune_records_round_trip_witness :
  exists record,
    nth_error (main_fine_tune_data main) 0 = Some record
    /\ content_of_role "assistant" record
       = Some (generate_code_template "sphere" "SphereGeometry" "0xff0000" "red").
Proof.
  destruct (proj1 (proj2 (proj2 (proj2 (proj2 fine_tune_records_round_trip))))
              0 (basic_example "sphere" "SphereGeometry" "red" "0xff0000")
              eq_refl) as (record & Hr & _ & Hc & _).
  exists record. split; [exact Hr | exact Hc].
Defined.

(** ** The prompt gateway *)

Section Gateway.

Import Server.

Variable json_loads : string -> outcome json.
Variable json_dumps : list (string * json) -> string.
Variable py_str : json -> string.

Local Abbreviation handle :=
  (handle_generate_request json_loads json_dumps py_str).

(** The handler reaches the test of the prompt when the length header
    is a number, the body can be read and is a JSON object; what it does
    next is settled by the truth value of the prompt and by the model. *)
Lemma handle_object_body (self : TapeServerHandler) (req : Request)
    (n : Z) (post_data : string) (request_data : list (string * json)) :
  content_length req = Ok n ->
  read n (rfile req) = Ok post_data ->
  json_loads post_data = Ok (JDict request_data) ->
  let prompt := Dict.get request_data "prompt" (JStr "") in
  handle self req =
  if negb (truthy prompt) then Done [SendError 400 "Prompt is required"]
  else
    match model self with
    | None => Done [SendError 500 "Gemini API not configured"]
    | Some m =>
        GenerateContent m (create_enhanced_prompt py_str prompt)
          (fun generated =>
             match generated with
             | Raise e => Done (generation_failed e)
             | Ok response =>
                 match text response with
                 | Raise e =>
                     Done (success_headers ++ generation_failed e)%list
                 | Ok code =>
                     Done (success_headers ++ [
                             Write (json_dumps [
                                      ("success", JBool true);
                                      ("code", JStr code);
                                      ("prompt", prompt)])
                           ])%list
                 end
             end)
    end.
Proof.
  intros Hlen Hread Hbody. unfold handle_generate_request.
  rewrite Hlen, Hread, Hbody. reflexivity.
Qed.

(** A request without a usable length header, with a length below [-1],
    or whose body is not JSON or is JSON but not an object, never reaches
    the test of the prompt: the exception is caught and reported as a
    500. *)
Lemma handle_other_bodies (self : TapeServerHandler) (req : Request) :
  (forall e, content_length req = Raise e ->
     handle self req = Done (generation_failed e))
  /\ (forall n, content_length req = Ok n -> (n < -1)%Z ->
        handle self req
        = Done (generation_failed "read length must be non-negative or -1"))
  /\ (forall n post_data e, content_length req = Ok n ->
        read n (rfile req) = Ok post_data ->
        json_loads post_data = Raise e ->
        handle self req = Done (generation_failed e))
  /\ (forall n post_data v, content_length req = Ok n ->
        read n (rfile req) = Ok post_data ->
        json_loads post_data = Ok v ->
        (forall d, v <> JDict d) ->
        status_of (handle self req) = Some 500).
Proof.
  unfold handle_generate_request. repeat split.
  - intros e ->. reflexivity.
  - intros n -> Hn. unfold read.
    apply Z.ltb_lt in Hn. rewrite Hn. reflexivity.
  - intros n post_data e -> -> ->. reflexivity.
  - intros n post_data v -> -> -> Hv. destruct v; try reflexivity.
    now elim (Hv d).
Qed.

(** The body is read when the length is [-1] or more. *)
Lemma read_ok (n : Z) (data : string) :
  (-1 <= n)%Z -> exists post_data, read n data = Ok post_data.
Proof.
  intros Hn. unfold read.
  destruct (Z.ltb_spec n (-1)); [lia|].
  destruct (n =? -1)%Z; eauto.
Qed.


End Gateway.


(** ** The animation hook *)

Lemma starts_with_settled (needle t y : string) :
  settled needle t = true ->
  starts_with needle (t ++ y) = starts_with needle t.
Proof.
  revert t. induction needle as [|a needle IH]; intros t; [reflexivity|].
  destruct t as [|b t]; unfold settled; simpl; [discriminate|].
  rewrite (Ascii.eqb_sym b a).
  destruct (Ascii.eqb a b); [apply IH | reflexivity].
Qed.

Lemma occurrences_app_literal (needle a y : string) :
  no_overlap needle a = true ->
  occurrences needle (a ++ y)
  = (occurrences needle a + occurrences needle y)%nat.
Proof.
  induction a as [|c a IH]; simpl no_overlap; intros H.
  - simpl. destruct (starts_with needle ""); [discriminate | reflexivity].
  - apply andb_prop in H. destruct H as [Hs Ha].
    change (String c a ++ y) with (String c (a ++ y)).
    rewrite (occurrences_unfold needle (String c (a ++ y))).
    rewrite (occurrences_unfold needle (String c a)).
    change (String c (a ++ y)) with (String c a ++ y).
    rewrite (starts_with_settled _ _ y Hs), (IH Ha). lia.
Qed.

Lemma starts_with_separator (needle t r : string) (c : ascii) :
  mem_char c needle = false ->
  starts_with needle (t ++ String c r) = starts_with needle t.
Proof.
  revert t. induction needle as [|a needle IH]; intros t H; [reflexivity|].
  simpl in H. apply orb_false_elim in H. destruct H as [Hc Hn].
  destruct t as [|b t]; simpl.
  - rewrite Ascii.eqb_sym, Hc. reflexivity.
  - destruct (Ascii.eqb a b); [now apply IH | reflexivity].
Qed.

Lemma occurrences_app_separator (needle x y : string) :
  starts_outside needle y = true ->
  occurrences needle (x ++ y)
  = (occurrences needle x + occurrences needle y)%nat.
Proof.
  unfold starts_outside. intros H. apply andb_prop in H.
  destruct H as [Hn Hy]. destruct y as [|c r]; [discriminate|].
  apply negb_true_iff in Hy.
  induction x as [|b x IH].
  - simpl append. rewrite (occurrences_unfold needle "").
    apply negb_true_iff in Hn. rewrite Hn. reflexivity.
  - change (String b x ++ String c r) with (String b (x ++ String c r)).
    rewrite (occurrences_unfold needle (String b (x ++ String c r))).
    rewrite (occurrences_unfold needle (String b x)).
    change (String b (x ++ String c r)) with (String b x ++ String c r).
    rewrite (starts_with_separator _ _ r c Hy), IH. lia.
Qed.

(** Count piece by piece along a concatenation. *)
Ltac count_pieces :=
  rewrite ?append_assoc;
  repeat first [ rewrite occurrences_app_literal by reflexivity
               | rewrite occurrences_app_separator by reflexivity ].

Lemma template_param_no_target (geometry : string) :
  occurrences animate_target (template_param geometry) = 0.
Proof.
  assert (Forall (fun v => occurrences animate_target v = 0)
            ("1, 1, 1" :: Dict.values template_params)) as H
    by (repeat constructor).
  rewrite Forall_forall in H. apply H. apply dict_get_cases.
Qed.

Lemma advanced_param_no_target (geometry : string) :
  occurrences animate_target (advanced_param geometry) = 0.
Proof.
  assert (Forall (fun v => occurrences animate_target v = 0)
            ("1, 1, 1" :: Dict.values advanced_params)) as H
    by (repeat constructor).
  rewrite Forall_forall in H. apply H. apply dict_get_cases.
Qed.

Lemma template_animation_no_target (shape : string) :
  occurrences animate_target (template_animation shape) = 0.
Proof.
  assert (Forall (fun v => occurrences animate_target v = 0)
            ("object.rotation.x += 0.01; object.rotation.y += 0.01;"
               :: Dict.values animations)) as H
    by (repeat constructor).
  rewrite Forall_forall in H. apply H. apply dict_get_cases.
Qed.

Lemma generate_code_template_one_hook
    (shape geometry color color_name : string) :
  occurrences animate_target geometry = 0 ->
  occurrences animate_target color = 0 ->
  occurrences animate_target
    (generate_code_template shape geometry color color_name) = 1.
Proof.
  intros Hg Hc. unfold generate_code_template, mesh_and_hook.
  count_pieces.
  rewrite Hg, Hc, template_param_no_target, template_animation_no_target.
  reflexivity.
Qed.

Lemma generate_advanced_code_one_hook
    (shape geometry color effect : string) :
  occurrences animate_target geometry = 0 ->
  occurrences animate_target color = 0 ->
  occurrences animate_target
    (generate_advanced_code shape geometry color effect) = 1.
Proof.
  intros Hg Hc. unfold generate_advanced_code, advanced_strategy, mesh_and_hook.
  repeat match goal with
         | |- context [if ?b then _ else _] => destruct b
         end;
    count_pieces; rewrite ?Hg, ?Hc, advanced_param_no_target; reflexivity.
Qed.

Lemma mesh_and_hook_statements (animation : string) :
  mesh_and_hook animation =
  "const object = new THREE.Mesh(geometry, material);" ++ nl ++
  "object.castShadow = true;" ++ nl ++
  "object.receiveShadow = true;" ++ nl ++
  animate_hook animation.
Proof. reflexivity. Qed.

Lemma generate_code_template_tail (shape geometry color color_name : string) :
  exists head,
    generate_code_template shape geometry color color_name
    = head ++ mesh_and_hook (template_animation shape).
Proof.
  unfold generate_code_template. eexists.
  rewrite <- !append_assoc. reflexivity.
Qed.

Lemma generate_advanced_code_tail (shape geometry color effect : string) :
  exists head,
    generate_advanced_code shape geometry color effect
    = head ++ mesh_and_hook (snd (advanced_strategy color effect)).
Proof.
  unfold generate_advanced_code.
  destruct (advanced_strategy color effect) as [material animation].
  eexists. rewrite <- !append_assoc. reflexivity.
Qed.

Lemma enumerated_strings_no_target :
  Forall (fun geometry => occurrences animate_target geometry = 0)
    enumerated_geometries
  /\ Forall (fun color => occurrences animate_target color = 0)
       enumerated_colors.
Proof. split; repeat constructor. Qed.

(** C7: every fragment of either template ends with the statement that
    binds the mesh to [object], the two shadow flags set to [true] and the
    assignment of the hook to [object.userData.animate] with the selected
    animation as its body; this holds for all inputs, none of the four
    depends on a condition.  For every geometry and color the callers
    pass (the kinds and literals of the tables and of the curated list)
    and every shape, color name and effect, that assignment is the one
    mention of [object.userData.animate] in the fragment, as it is more
    generally when the geometry and color strings do not mention it
    themselves, and in each example of the corpus. *)
Theorem fragments_end_with_mesh_and_hook
    (shape geometry color color_name effect : string) :
  let basic := generate_code_template shape geometry color color_name in
  let advanced := generate_advanced_code shape geometry color effect in
  (exists head, basic = head ++ mesh_and_hook (template_animation shape))
  /\ (exists head,
        advanced = head ++ mesh_and_hook (snd (advanced_strategy color effect)))
  /\ (forall animation,
        mesh_and_hook animation =
        "const object = new THREE.Mesh(geometry, material);" ++ nl ++
        "object.castShadow = true;" ++ nl ++
        "object.receiveShadow = true;" ++ nl ++
        "object.userData.animate = () => { " ++ nl ++
        "    " ++ animation ++ nl ++
        "};")
  /\ (1 <= occurrences animate_target basic)%nat
  /\ (1 <= occurrences animate_target advanced)%nat
  /\ (In geometry enumerated_geometries ->
      In color enumerated_colors ->
      occurrences animate_target basic = 1
      /\ occurrences animate_target advanced = 1)
  /\ (occurrences animate_target geometry = 0 ->
      occurrences animate_target color = 0 ->
      occurrences animate_target basic = 1
      /\ occurrences animate_target advanced = 1)
  /\ Forall (fun example => occurrences animate_target (code example) = 1)
       (generate_training_examples init).
Proof.
  intros basic advanced. subst basic advanced.
  assert (forall head animation,
             (1 <= occurrences animate_target
                     (head ++ mesh_and_hook animation))%nat) as Hone.
  { intros head animation. apply contains_occurrences.
    apply contains_app_r. unfold mesh_and_hook.
    do 6 apply contains_app_r. apply contains_app_l. in_literal. }
  assert (occurrences animate_target geometry = 0 ->
          occurrences animate_target color = 0 ->
          occurrences animate_target
            (generate_code_template shape geometry color color_name) = 1
          /\ occurrences animate_target
               (generate_advanced_code shape geometry color effect) = 1)
    as Hclean.
  { intros Hg Hc. split.
    - now apply generate_code_template_one_hook.
    - now apply generate_advanced_code_one_hook. }
  split; [apply generate_code_template_tail|].
  split; [apply generate_advanced_code_tail|].
  split; [reflexivity|].
  split.
  { destruct (generate_code_template_tail shape geometry color color_name)
      as (head & ->). apply Hone. }
  split.
  { destruct (generate_advanced_code_tail shape geometry color effect)
      as (head & ->). apply Hone. }
  split; [|split; [exact Hclean|]].
  - intros Hg Hc. destruct enumerated_strings_no_target as [Fg Fc].
    rewrite Forall_forall in Fg, Fc. apply Hclean; auto.
  - apply Forall_forall. intros example Hin. apply Nat.eqb_eq.
    revert example Hin. apply forallb_forall. vm_compute. reflexivity.
Qed.

Lemma fragments_end_with_mesh_and_hook_witness :
  In "TorusGeometry" enumerated_geometries
  /\ In "0x00ff00" enumerated_colors
  /\ occurrences animate_target
       (generate_code_template "torus" "TorusGeometry" "0x00ff00" "green") = 1
  /\ occurrences animate_target
       (generate_advanced_code "torus" "TorusGeometry" "0x00ff00" "pulsing") = 1.
Proof.
  assert (In "TorusGeometry" enumerated_geometries) as Hg
    by (simpl; tauto).
  assert (In "0x00ff00" enumerated_colors) as Hc by (simpl; tauto).
  split; [exact Hg|]. split; [exact Hc|].
  exact (proj1 (proj2 (proj2 (proj2 (proj2 (proj2
           (fragments_end_with_mesh_and_hook
              "torus" "TorusGeometry" "0x00ff00" "green" "pulsing"))))))
           Hg Hc).
Defined.

(** * Further properties *)

(** ** What the validator accepts *)

Ltac denote_pattern :=
  rewrite re_search_spec; split;
  [ let r := fresh "r" in let pre := fresh "pre" in
    let m := fresh "m" in let post := fresh "post" in
    let Hr := fresh "Hr" in let Hm := fresh "Hm" in
    intros (r & pre & m & post & Hr & -> & Hm);
    vm_compute in Hr; injection Hr as <-;
    invert_matches Hm
  | ].

Lemma geometry_pattern_const_new (s : string) :
  Re.search "const\s+geometry\s*=\s*new\s+THREE\." s = true <->
  ConstNew "geometry" "THREE." s.
Proof.
  rewrite geometry_pattern_denotes. unfold ConstNew, Spaces. reflexivity.
Qed.

Lemma material_pattern_const_new (s : string) :
  Re.search "const\s+material\s*=\s*new\s+THREE\." s = true <->
  ConstNew "material" "THREE." s.
Proof.
  denote_pattern.
  - exists pre, ws, ws0, ws1, ws2, post.
    split; [string_nf; reflexivity | now repeat split].
  - intros (pre & ws1 & ws2 & ws3 & ws4 & post
            & -> & H1 & H4 & A1 & A2 & A3 & A4).
    eexists.
    exists pre,
      ("const" ++ ws1 ++ "material" ++ ws2 ++ "=" ++ ws3 ++
       "new" ++ ws4 ++ "THREE."), post.
    split; [reflexivity|]. split; [string_nf; reflexivity|].
    simpl. build_matches.
Qed.

Lemma object_pattern_const_new (s : string) :
  Re.search "const\s+object\s*=\s*new\s+THREE\.Mesh" s = true <->
  ConstNew "object" "THREE.Mesh" s.
Proof.
  denote_pattern.
  - exists pre, ws, ws0, ws1, ws2, post.
    split; [string_nf; reflexivity | now repeat split].
  - intros (pre & ws1 & ws2 & ws3 & ws4 & post
            & -> & H1 & H4 & A1 & A2 & A3 & A4).
    eexists.
    exists pre,
      ("const" ++ ws1 ++ "object" ++ ws2 ++ "=" ++ ws3 ++
       "new" ++ ws4 ++ "THREE.Mesh"), post.
    split; [reflexivity|]. split; [string_nf; reflexivity|].
    simpl. build_matches.
Qed.

Lemma cast_shadow_pattern_sets_true (s : string) :
  Re.search "object\.castShadow\s*=\s*true" s = true <->
  SetsTrue "object.castShadow" s.
Proof.
  denote_pattern.
  - exists pre, ws, ws0, post.
    split; [string_nf; reflexivity | now repeat split].
  - intros (pre & ws1 & ws2 & post & -> & A1 & A2).
    eexists.
    exists pre, ("object.castShadow" ++ ws1 ++ "=" ++ ws2 ++ "true"), post.
    split; [reflexivity|]. split; [string_nf; reflexivity|].
    simpl. build_matches.
Qed.

Lemma receive_shadow_pattern_sets_true (s : string) :
  Re.search "object\.receiveShadow\s*=\s*true" s = true <->
  SetsTrue "object.receiveShadow" s.
Proof.
  denote_pattern.
  - exists pre, ws, ws0, post.
    split; [string_nf; reflexivity | now repeat split].
  - intros (pre & ws1 & ws2 & post & -> & A1 & A2).
    eexists.
    exists pre, ("object.receiveShadow" ++ ws1 ++ "=" ++ ws2 ++ "true"), post.
    split; [reflexivity|]. split; [string_nf; reflexivity|].
    simpl. build_matches.
Qed.

Lemma animate_pattern_assigns (s : string) :
  Re.search "object\.userData\.animate\s*=" s = true <->
  Assigns "object.userData.animate" s.
Proof.
  rewrite animate_pattern_denotes. unfold Assigns, Spaces. reflexivity.
Qed.

(** X1: the validator accepts a text exactly when it holds, anywhere and
    in any order, [const geometry = new THREE.], [const material = new
    THREE.], [const object = new THREE.Mesh], [object.castShadow = true],
    [object.receiveShadow = true] and [object.userData.animate =], each
    with any white space around its equals sign and at least one white
    space character after [const] and [new].  Nothing else of the text is
    looked at. *)
Theorem validator_accepts_exactly (fragment : string) :
  validate_generated_code fragment = true <->
  ConstNew "geometry" "THREE." fragment
  /\ ConstNew "material" "THREE." fragment
  /\ ConstNew "object" "THREE.Mesh" fragment
  /\ SetsTrue "object.castShadow" fragment
  /\ SetsTrue "object.receiveShadow" fragment
  /\ Assigns "object.userData.animate" fragment.
Proof.
  unfold validate_generated_code. rewrite validate_loop_true.
  rewrite <- geometry_pattern_const_new, <- material_pattern_const_new,
    <- object_pattern_const_new, <- cast_shadow_pattern_sets_true,
    <- receive_shadow_pattern_sets_true, <- animate_pattern_assigns.
  split.
  - intros H. repeat split; apply H; simpl; tauto.
  - intros (H1 & H2 & H3 & H4 & H5 & H6) pattern Hin. simpl in Hin.
    destruct Hin as [<-|[<-|[<-|[<-|[<-|[<-|[]]]]]]]; assumption.
Qed.

(** X2: a text that holds an accepted fragment is accepted, whatever
    stands before and after the fragment. *)
Theorem validator_ignores_context (pre fragment post : string) :
  validate_generated_code fragment = true ->
  validate_generated_code (pre ++ fragment ++ post) = true.
Proof.
  unfold validate_generated_code. rewrite !validate_loop_true.
  intros H pattern Hin. specialize (H pattern Hin).
  rewrite re_search_spec in *.
  destruct H as (r & a & m & b & Hr & -> & Hm).
  exists r, (pre ++ a), m, (b ++ post).
  split; [exact Hr|]. split; [|exact Hm].
  now rewrite !append_assoc.
Qed.

Lemma validator_ignores_context_witness :
  validate_generated_code
    ("// draft" ++ nl ++ String.concat nl six_statements ++ nl ++
     "scene.add(object);") = true.
Proof.
  apply (validator_ignores_context
           ("// draft" ++ nl) (String.concat nl six_statements)
           (nl ++ "scene.add(object);")).
  vm_compute. reflexivity.
Defined.

(** ** The corpus and the validator together *)

Lemma in_firstn {A : Type} (n : nat) (l : list A) (x : A) :
  In x (firstn n l) -> In x l.
Proof.
  revert l. induction n as [|n IH]; intros [|y l]; simpl; try tauto.
  intros [E|H]; [now left | right; now apply IH].
Qed.

Lemma count_valid_filter (training_data : list Example) :
  count_valid training_data
  = length (filter (fun example => validate_generated_code (code example))
              (firstn 10 training_data)).
Proof.
  unfold count_valid.
  assert (forall l acc,
            fold_left
              (fun valid_count example =>
                 if validate_generated_code (code example)
                 then (valid_count + 1)%nat else valid_count) l acc
            = (acc + length (filter (fun example =>
                                       validate_generated_code (code example))
                               l))%nat) as H.
  { induction l as [|e l IH]; intros acc; simpl; [lia|].
    rewrite IH. destruct (validate_generated_code (code e)); simpl; lia. }
  now rewrite H.
Qed.

Lemma generated_examples_valid (self : ThreeJSTrainer) :
  Forall (fun example => validate_generated_code (code example) = true)
    (generate_training_examples self).
Proof.
  rewrite generate_training_examples_phases. apply Forall_app. split.
  - apply Forall_forall. intros e He. unfold basic_phase in He.
    apply in_flat_map in He. destruct He as ([shape geometry] & _ & He).
    apply in_map_iff in He. destruct He as ([color_name color_hex] & <- & _).
    apply generate_code_template_valid.
  - apply Forall_forall. intros e He. unfold advanced_phase in He.
    apply in_map_iff in He.
    destruct He as ([[[p shape] color] effect] & <- & _).
    apply generate_advanced_code_valid.
Qed.

(** X3: whatever the shape and color tables of the trainer hold, every
    example [generate_training_examples] returns has a code the validator
    accepts, so the count [main] prints is the number of examples it
    looked at: ten, or all of them when there are fewer.  On any list of
    examples the count is at most ten and only the first ten matter. *)
Theorem generated_corpus_passes_validation (self : ThreeJSTrainer) :
  Forall (fun example => validate_generated_code (code example) = true)
    (generate_training_examples self)
  /\ count_valid (generate_training_examples self)
     = Nat.min 10 (length (generate_training_examples self))
  /\ (forall training_data,
        (count_valid training_data <= 10)%nat
        /\ (count_valid training_data <= length training_data)%nat
        /\ count_valid training_data
           = count_valid (firstn 10 training_data)).
Proof.
  split; [apply generated_examples_valid|]. split.
  - rewrite count_valid_filter.
    pose proof (generated_examples_valid self) as H.
    set (l := generate_training_examples self) in *.
    assert (Forall (fun example =>
                      validate_generated_code (code example) = true)
              (firstn 10 l)) as H10
      by (apply Forall_forall; intros e He;
          rewrite Forall_forall in H; apply H;
          now apply (in_firstn 10 l)).
    rewrite forallb_filter_id, length_firstn; [reflexivity|].
    apply forallb_forall. now rewrite Forall_forall in H10.
  - intros training_data. rewrite (count_valid_filter (firstn 10 _)).
    rewrite firstn_firstn, Nat.min_id, <- count_valid_filter.
    rewrite count_valid_filter.
    pose proof (filter_length_le
                  (fun example => validate_generated_code (code example))
                  (firstn 10 training_data)) as Hle.
    pose proof (firstn_le_length 10 training_data) as H10.
    rewrite length_firstn in Hle. repeat split; lia.
Qed.

(** ** The gateway, whatever the request *)

Lemma string_length_append (a b : string) :
  String.length (a ++ b) = (String.length a + String.length b)%nat.
Proof. induction a as [|x a IH]; simpl; [reflexivity | now rewrite IH]. Qed.

Lemma append_inv_tail (a b c : string) : a ++ c = b ++ c -> a = b.
Proof.
  revert b. induction a as [|x a IH]; intros [|y b] H; simpl in H.
  - reflexivity.
  - apply (f_equal String.length) in H. simpl in H.
    rewrite string_length_append in H. lia.
  - apply (f_equal String.length) in H. simpl in H.
    rewrite string_length_append in H. lia.
  - injection H as -> H. f_equal. now apply IH.
Qed.

(** The run ends at once with [send_error]. *)
Ltac no_call :=
  solve [ unfold Server.generation_failed; cbn [Server.run fst snd negb];
          split;
          [ left; split; [reflexivity|];
            eexists; eexists; split; [reflexivity | simpl; tauto]
          | split; [simpl; lia|];
            split; [auto|];
            split; [|assumption];
            cbn [Server.statuses flat_map app];
            intros [H|[]]; apply Nat.eqb_eq in H; vm_compute in H;
            discriminate H ] ].

Section GatewayRuns.

Import Server.

Variable json_loads : string -> outcome json.
Variable json_dumps : list (string * json) -> string.
Variable py_str : json -> string.



(** X6: the instructions sent to the model are a fixed text around the
    prompt, which stands between double quotes as [str] gives it, with
    nothing escaped or cut; two prompts with different texts give
    different instructions. *)
Theorem enhanced_prompt_embeds_prompt :
  exists prefix suffix,
    (forall user_prompt,
       create_enhanced_prompt py_str user_prompt
       = prefix ++ "User request: " ++ dquote ++ py_str user_prompt ++
         dquote ++ suffix)
    /\ Contains "Generate ONLY JavaScript code" prefix
    /\ Contains "Generate the code:" suffix
    /\ (forall p1 p2,
          create_enhanced_prompt py_str p1 = create_enhanced_prompt py_str p2 ->
          py_str p1 = py_str p2).
Proof.
  exists
    (nl ++
     "        You are an expert Three.js developer. Generate ONLY JavaScript code to create a 3D object." ++ nl ++
     "        " ++ nl ++
     "        REQUIREMENTS:" ++ nl ++
     "        - The final object/group MUST be assigned to a variable named 'object'" ++ nl ++
     "        - Add an 'animate' function to 'object.userData' for smooth animation" ++ nl ++
     "        - Use appropriate Three.js geometries, materials, and groups" ++ nl ++
     "        - Include realistic materials with proper metalness, roughness, and color" ++ nl ++
     "        - Add shadows with 'castShadow = true' and 'receiveShadow = true'" ++ nl ++
     "        - Create interesting animations (rotation, scaling, position changes)" ++ nl ++
     "        - Use advanced materials like MeshStandardMaterial or MeshPhysicalMaterial" ++ nl ++
     "        " ++ nl ++
     "        DO NOT INCLUDE:" ++ nl ++
     "        - Scene, camera, renderer, or lighting setup" ++ nl ++
     "        - Import statements or external dependencies" ++ nl ++
     "        - Markdown backticks or code blocks" ++ nl ++
     "        - Comments or explanations" ++ nl ++
     "        " ++ nl ++ "        "),
    (nl ++ "        " ++ nl ++ "        Generate the code:" ++
     nl ++ "        ").
  split; [|split; [|split]].
  - intros user_prompt. unfold create_enhanced_prompt.
    string_nf. reflexivity.
  - in_literal.
  - in_literal.
  - intros p1 p2 H. unfold create_enhanced_prompt in H.
    repeat apply append_inv_head in H.
    rewrite <- !append_assoc in H. repeat apply append_inv_tail in H.
    exact H.
Qed.

End GatewayRuns.


(** ** The corpus for any tables *)

Lemma advanced_example_code (self : ThreeJSTrainer)
    (p shape color effect : string) :
  code (advanced_example self (p, shape, color, effect))
  = generate_advanced_code shape
      (Dict.get (geometries self) shape "BoxGeometry") color effect.
Proof. reflexivity. Qed.

(** X7: for any shape and color tables the corpus has one basic example
    per pair of a shape and a color and the ten curated examples after
    them; with an empty table these ten are all there is.  A curated shape
    that the shape table does not have is built as a [BoxGeometry] with
    the parameters [2, 2, 2]; one that it has is built with the geometry
    kind of the table and the parameters the advanced table gives that
    kind. *)
Theorem corpus_for_any_tables (self : ThreeJSTrainer) :
  length (generate_training_examples self)
  = (length (geometries self) * length (colors self) + 10)%nat
  /\ (geometries self = [] \/ colors self = [] ->
      generate_training_examples self
      = map (advanced_example self) complex_objects)
  /\ (forall p shape color effect,
        ~ In shape (Dict.keys (geometries self)) ->
        starts_with "const geometry = new THREE.BoxGeometry(2, 2, 2);"
          (code (advanced_example self (p, shape, color, effect))) = true)
  /\ (forall p shape geometry color effect,
        Dict.lookup (geometries self) shape = Some geometry ->
        starts_with
          ("const geometry = new THREE." ++ geometry ++
           "(" ++ advanced_param geometry ++ ");")
          (code (advanced_example self (p, shape, color, effect))) = true).
Proof.
  rewrite generate_training_examples_phases.
  split; [|split; [|split]].
  - rewrite length_app, basic_phase_length. unfold advanced_phase.
    rewrite length_map. reflexivity.
  - intros Hempty.
    assert (basic_phase self = []) as ->; [|reflexivity].
    apply length_zero_iff_nil. rewrite basic_phase_length.
    destruct Hempty as [-> | ->]; simpl; lia.
  - intros p shape color effect Hno. rewrite advanced_example_code.
    rewrite (dict_get_default _ _ _ Hno).
    apply (generate_advanced_code_geometry shape "BoxGeometry").
  - intros p shape geometry color effect Hg. rewrite advanced_example_code.
    rewrite dict_get_lookup, Hg.
    apply generate_advanced_code_geometry.
Qed.

Lemma corpus_for_any_tables_witness :
  let self := {| training_data := []; geometries := [("cube", "BoxGeometry")];
                 materials := []; colors := [] |} in
  generate_training_examples self = map (advanced_example self) complex_objects
  /\ starts_with "const geometry = new THREE.BoxGeometry(2, 2, 2);"
       (code (advanced_example self
                ("spinning golden sphere", "sphere", "0xffd700", "metallic")))
     = true
  /\ starts_with "const geometry = new THREE.BoxGeometry(2, 2, 2);"
       (code (advanced_example self
                ("glowing blue cube", "cube", "0x0000ff", "emissive")))
     = true.
Proof.
  intros self.
  pose proof (corpus_for_any_tables self) as (_ & Hempty & Hmissing & Hfound).
  split; [apply Hempty; right; reflexivity|]. split.
  - apply Hmissing. simpl. intuition discriminate.
  - apply (Hfound _ "cube" "BoxGeometry"). reflexivity.
Defined.

(** X8: the curated list never takes a fallback.  Each of its shapes is
    in the shape table and has a geometry kind with parameters in the
    advanced table, each of its effects is one of the nine tags, and each
    of the nine tags occurs in it; no fragment of the corpus is built with
    the default parameters. *)
Theorem curated_list_takes_no_fallback :
  Forall (fun '(_, shape, _, effect) =>
            In shape (Dict.keys (geometries init))
            /\ In (Dict.get (geometries init) shape "BoxGeometry")
                 (Dict.keys advanced_params)
            /\ In effect recognized_effects)
    complex_objects
  /\ incl recognized_effects
       (map (fun '(_, _, _, effect) => effect) complex_objects)
  /\ Forall (fun example => occurrences "(1, 1, 1)" (code example) = 0)
       (generate_training_examples init).
Proof.
  split; [|split].
  - repeat (constructor; [simpl; intuition reflexivity|]). constructor.
  - intros effect Hin. simpl in Hin |- *.
    repeat (destruct Hin as [<-|Hin]; [tauto|]). destruct Hin.
  - apply Forall_forall. intros example Hin. apply Nat.eqb_eq.
    revert example Hin. apply forallb_forall. vm_compute. reflexivity.
Qed.

(** ** Prompts *)

Lemma split_at_space (a b a' b' : string) :
  mem_char " " a = false -> mem_char " " a' = false ->
  a ++ " " ++ b = a' ++ " " ++ b' -> a = a' /\ b = b'.
Proof.
  revert a'. induction a as [|x a IH]; intros [|y a'] Ha Ha' H; simpl in *.
  - injection H as H. now split.
  - injection H as <- _. simpl in Ha'. discriminate.
  - injection H as -> _. simpl in Ha. discriminate.
  - injection H as -> H.
    apply orb_false_elim in Ha. apply orb_false_elim in Ha'.
    destruct (IH a' (proj2 Ha) (proj2 Ha') H) as [-> ->]. now split.
Qed.

Lemma firstn_length_app {A : Type} (l l' : list A) :
  firstn (length l) (l ++ l')%list = l.
Proof. induction l as [|x l IH]; simpl; [reflexivity | now rewrite IH]. Qed.

Lemma basic_phase_prompts (self : ThreeJSTrainer) :
  map prompt (basic_phase self)
  = flat_map (fun shape =>
                map (fun color_name => "Create a " ++ color_name ++ " " ++ shape)
                  (Dict.keys (colors self)))
      (Dict.keys (geometries self)).
Proof.
  unfold basic_phase, Dict.keys.
  induction (geometries self) as [|[shape geometry] gs IH]; simpl;
    [reflexivity|].
  rewrite map_app, IH. f_equal. rewrite !map_map.
  apply map_ext. now intros [color_name color_hex].
Qed.

(** X9: when no color name has a space in it, the prompts of the basic
    examples are all different (the names of a table being different from
    one another): a prompt tells its color and its shape.  With the tables
    of [__init__] the 120 prompts of the corpus are all different. *)
Theorem basic_prompts_distinct :
  (forall self : ThreeJSTrainer,
     NoDup (Dict.keys (geometries self)) ->
     NoDup (Dict.keys (colors self)) ->
     Forall (fun color_name => mem_char " " color_name = false)
       (Dict.keys (colors self)) ->
     NoDup (map prompt
              (firstn (length (geometries self) * length (colors self))
                 (generate_training_examples self))))
  /\ NoDup (map prompt (generate_training_examples init)).
Proof.
  split.
  - intros self Hg Hc Hsp.
    rewrite generate_training_examples_phases, <- basic_phase_length.
    rewrite firstn_length_app.
    rewrite basic_phase_prompts. rewrite Forall_forall in Hsp.
    induction Hg as [|shape shapes Hnotin Hnd IH]; simpl; [constructor|].
    apply NoDup_app.
    + apply NoDup_map_NoDup_ForallPairs; [|exact Hc].
      intros c1 c2 H1 H2 E. apply (append_inv_head "Create a ") in E.
      now destruct (split_at_space _ _ _ _ (Hsp _ H1) (Hsp _ H2) E).
    + exact IH.
    + intros x Hx Hrest. apply in_map_iff in Hx.
      destruct Hx as (c1 & <- & H1).
      apply in_flat_map in Hrest. destruct Hrest as (shape' & Hs' & Hin).
      apply in_map_iff in Hin. destruct Hin as (c2 & E & H2).
      apply (append_inv_head "Create a ") in E.
      destruct (split_at_space _ _ _ _ (Hsp _ H2) (Hsp _ H1) E) as [_ ->].
      now apply Hnotin.
  - assert (nodup string_dec (map prompt (generate_training_examples init))
            = map prompt (generate_training_examples init)) as <-
      by (vm_compute; reflexivity).
    apply NoDup_nodup.
Qed.

Lemma basic_prompts_distinct_witness :
  NoDup (map prompt (firstn 110 (generate_training_examples init))).
Proof.
  apply (proj1 basic_prompts_distinct init).
  - simpl. repeat (constructor; [simpl; intuition discriminate|]).
    constructor.
  - simpl. repeat (constructor; [simpl; intuition discriminate|]).
    constructor.
  - repeat constructor.
Defined.

(** ** What the templates do not look at *)

(** X10: a shape without an animation of its own in [generate_code_template]
    gets the rotation about the x and y axes as the body of the hook; of
    the eleven shapes of the shape table these are plane, ring,
    dodecahedron, icosahedron, octahedron and tetrahedron.  The template
    does not use the color name it is given, and looks at the shape for
    the animation only; [generate_advanced_code] does not use the shape at
    all. *)
Theorem template_animation_fallback :
  (forall shape geometry color color_name,
     ~ In shape (Dict.keys animations) ->
     exists head,
       generate_code_template shape geometry color color_name
       = head ++ animate_hook
                   "object.rotation.x += 0.01; object.rotation.y += 0.01;")
  /\ (forall shape animation geometry color color_name,
        In (shape, animation) animations ->
        exists head,
          generate_code_template shape geometry color color_name
          = head ++ animate_hook animation)
  /\ filter (fun shape => negb (existsb (String.eqb shape)
                                  (Dict.keys animations)))
       (Dict.keys (geometries init))
     = ["plane"; "ring"; "dodecahedron"; "icosahedron"; "octahedron";
        "tetrahedron"]
  /\ (forall shape geometry color name1 name2,
        generate_code_template shape geometry color name1
        = generate_code_template shape geometry color name2)
  /\ (forall shape1 shape2 geometry color color_name,
        template_animation shape1 = template_animation shape2 ->
        generate_code_template shape1 geometry color color_name
        = generate_code_template shape2 geometry color color_name)
  /\ (forall shape1 shape2 geometry color effect,
        generate_advanced_code shape1 geometry color effect
        = generate_advanced_code shape2 geometry color effect).
Proof.
  assert (forall shape geometry color color_name,
            exists head,
              generate_code_template shape geometry color color_name
              = head ++ animate_hook (template_animation shape)) as Htail.
  { intros shape geometry color color_name.
    destruct (generate_code_template_tail shape geometry color color_name)
      as (head & ->).
    exists (head ++ "const object = new THREE.Mesh(geometry, material);" ++
            nl ++ "object.castShadow = true;" ++ nl ++
            "object.receiveShadow = true;" ++ nl).
    rewrite mesh_and_hook_statements, !append_assoc. reflexivity. }
  split; [|split; [|split; [reflexivity|split; [reflexivity|split]]]].
  - intros shape geometry color color_name Hno.
    destruct (Htail shape geometry color color_name) as (head & ->).
    exists head. unfold template_animation.
    now rewrite (dict_get_default _ _ _ Hno).
  - intros shape animation geometry color color_name Hin.
    destruct (Htail shape geometry color color_name) as (head & ->).
    exists head. unfold template_animation.
    rewrite (dict_get_in animations shape animation); [reflexivity| |exact Hin].
    unfold animations, Dict.keys. simpl.
    repeat (constructor; [simpl; intuition discriminate|]). constructor.
  - intros shape1 shape2 geometry color color_name E.
    unfold generate_code_template. now rewrite E.
  - reflexivity.
Qed.

Lemma template_animation_fallback_witness :
  exists head,
    generate_code_template "ring" "RingGeometry" "0x00ffff" "cyan"
    = head ++ animate_hook
                "object.rotation.x += 0.01; object.rotation.y += 0.01;".
Proof.
  apply (proj1 template_animation_fallback).
  simpl. intuition discriminate.
Defined.

(** ** The files *)

Ltac each_character c :=
  destruct c as [b0 b1 b2 b3 b4 b5 b6 b7];
  destruct b0, b1, b2, b3, b4, b5, b6, b7.

Lemma printable_app (a b : string) :
  printable (a ++ b) = printable a && printable b.
Proof.
  induction a as [|c a IH]; [reflexivity|].
  cbn [append printable]. rewrite IH.
  now destruct ((32 <=? nat_of_ascii c)%nat && (nat_of_ascii c <=? 126)%nat).
Qed.

Lemma printable_escape_char (c : ascii) : printable (Json.escape_char c) = true.
Proof. each_character c; reflexivity. Qed.

Lemma printable_escape (s : string) : printable (Json.escape s) = true.
Proof.
  induction s as [|c s IH]; simpl; [reflexivity|].
  now rewrite printable_app, printable_escape_char, IH.
Qed.

Lemma printable_dumps_str (s : string) : printable (Json.dumps_str s) = true.
Proof.
  unfold Json.dumps_str.
  now rewrite !printable_app, printable_escape.
Qed.

Lemma printable_concat (sep : string) (items : list string) :
  printable sep = true ->
  Forall (fun item => printable item = true) items ->
  printable (String.concat sep items) = true.
Proof.
  intros Hsep Hitems. induction Hitems as [|x l Hx Hl IH]; [reflexivity|].
  simpl. destruct l as [|y l]; [exact Hx|].
  now rewrite !printable_app, Hx, Hsep, IH.
Qed.

Lemma line_breaks_app (a b : string) :
  Output.line_breaks (a ++ b)
  = (Output.line_breaks a + Output.line_breaks b)%nat.
Proof.
  unfold Output.line_breaks. induction a as [|c a IH]; [reflexivity|].
  change (String c a ++ b) with (String c (a ++ b)).
  rewrite (occurrences_unfold nl (String c (a ++ b))).
  rewrite (occurrences_unfold nl (String c a)), IH.
  unfold nl. simpl starts_with. lia.
Qed.

Lemma printable_no_line_break (s : string) :
  printable s = true -> Output.line_breaks s = 0.
Proof.
  unfold Output.line_breaks. induction s as [|c s IH]; [reflexivity|].
  cbn [printable].
  destruct ((32 <=? nat_of_ascii c)%nat && (nat_of_ascii c <=? 126)%nat)
    eqn:Hc; [|discriminate].
  intros Hs. rewrite occurrences_unfold, (IH Hs).
  unfold nl. cbn [starts_with].
  destruct (Ascii.eqb_spec "010"%char c) as [<-|_];
    [vm_compute in Hc; discriminate Hc|].
  reflexivity.
Qed.

Lemma printable_dumps_record (item : FineTuneRecord) :
  printable (Output.dumps_record item) = true.
Proof.
  unfold Output.dumps_record, Json.dumps_dict, Json.dumps_list.
  cbn [map String.concat].
  rewrite !printable_app, printable_dumps_str.
  rewrite printable_concat; [reflexivity | reflexivity |].
  apply Forall_forall. intros x Hx. apply in_map_iff in Hx.
  destruct Hx as (m & <- & _).
  unfold Output.dumps_message, Json.dumps_dict. cbn [map String.concat].
  now rewrite !printable_app, !printable_dumps_str.
Qed.

Lemma finetune_file_lines (fine_tune_data : list FineTuneRecord) :
  Output.finetune_file fine_tune_data
  = fold_right (fun item rest => Output.dumps_record item ++ nl ++ rest)
      "" fine_tune_data.
Proof.
  unfold Output.finetune_file.
  assert (forall l acc,
            fold_left (fun f item => f ++ (Output.dumps_record item ++ nl))
              l acc
            = acc ++ fold_right
                       (fun item rest => Output.dumps_record item ++ nl ++ rest)
                       "" l) as H.
  { induction l as [|x l IH]; intros acc; cbn [fold_left fold_right].
    - now rewrite append_nil_r.
    - rewrite IH, !append_assoc. reflexivity. }
  apply (H fine_tune_data "").
Qed.

(** X11: the data-set file holds the records in their order, each on a
    line of its own that ends with a line break.  An encoded record is
    made of the characters from the space to the tilde only, whatever the
    messages hold, so the line breaks of a code fragment do not break the
    line: the file has as many line breaks as there are records. *)
Theorem finetune_file_one_line_per_record
    (fine_tune_data : list FineTuneRecord) :
  Output.finetune_file fine_tune_data
  = fold_right (fun item rest => Output.dumps_record item ++ nl ++ rest)
      "" fine_tune_data
  /\ Forall (fun item => printable (Output.dumps_record item) = true)
       fine_tune_data
  /\ Output.line_breaks (Output.finetune_file fine_tune_data)
     = length fine_tune_data
  /\ Output.line_breaks
       (Output.finetune_file (main_fine_tune_data main)) = 120.
Proof.
  assert (forall l : list FineTuneRecord,
            Output.line_breaks (Output.finetune_file l) = length l) as Hlen.
  { intros l. rewrite finetune_file_lines.
    induction l as [|x l IH]; [reflexivity|]. cbn [fold_right length].
    rewrite !line_breaks_app, IH.
    rewrite (printable_no_line_break _ (printable_dumps_record x)).
    reflexivity. }
  split; [apply finetune_file_lines|]. split; [|split].
  - apply Forall_forall. intros item _. apply printable_dumps_record.
  - apply Hlen.
  - rewrite Hlen. unfold main. cbn [main_fine_tune_data].
    rewrite build_fine_tune_data_map, length_map.
    unfold save_training_data. rewrite generate_training_examples_phases.
    rewrite length_app, basic_phase_length. reflexivity.
Qed.

Lemma read_string_escape_char (c : ascii) (s : string) :
  Json.read_string (Json.escape_char c ++ s)
  = Json.push c (Json.read_string s).
Proof. each_character c; reflexivity. Qed.

Lemma read_string_escape (s rest : string) :
  Json.read_string (Json.escape s ++ String "034"%char rest) = Some (s, rest).
Proof.
  induction s as [|c s IH]; [reflexivity|].
  simpl Json.escape. rewrite append_assoc, read_string_escape_char, IH.
  reflexivity.
Qed.

Ltac peel_literal H :=
  repeat (progress (simpl in H; rewrite ?append_assoc in H));
  repeat (injection H as H).

(** X12: what [json.dumps] makes of a string can be read back: reading
    from after the opening quote gives the string and the text after the
    closing quote, so different strings are written differently.  A line
    of the data-set file therefore tells the prompt and the code of its
    example, and nothing else of it: two examples give the same line
    exactly when they have the same prompt and the same code. *)
Theorem finetune_line_round_trip :
  (forall s rest,
     Json.read_string (Json.escape s ++ dquote ++ rest) = Some (s, rest))
  /\ (forall s1 s2, Json.dumps_str s1 = Json.dumps_str s2 -> s1 = s2)
  /\ (forall e1 e2,
        Output.dumps_record (fine_tune_record e1)
        = Output.dumps_record (fine_tune_record e2)
        <-> prompt e1 = prompt e2 /\ code e1 = code e2).
Proof.
  split; [|split].
  - intros s rest. apply read_string_escape.
  - intros s1 s2 H. unfold Json.dumps_str in H.
    apply append_inv_head in H.
    apply (f_equal Json.read_string) in H.
    unfold dquote in H. rewrite !read_string_escape in H. congruence.
  - intros e1 e2. split.
    + intros H.
      unfold Output.dumps_record, Output.dumps_message, fine_tune_record,
        Json.dumps_dict, Json.dumps_list, Json.dumps_str in H.
      cbn [messages role content map String.concat] in H.
      simpl in H. peel_literal H.
      apply (f_equal Json.read_string) in H.
      rewrite !read_string_escape in H.
      injection H as Hp H. peel_literal H.
      apply (f_equal Json.read_string) in H.
      rewrite !read_string_escape in H.
      injection H as Hc. now split.
    + intros [Hp Hc]. unfold fine_tune_record. now rewrite Hp, Hc.
Qed.

Lemma line_breaks_concat (sep : string) (k : nat) (items : list string) :
  Forall (fun item => Output.line_breaks item = k) items ->
  items <> [] ->
  Output.line_breaks (String.concat sep items)
  = (length items * k + (length items - 1) * Output.line_breaks sep)%nat.
Proof.
  intros Hitems. induction Hitems as [|x l Hx Hl IH]; [congruence|].
  intros _. destruct l as [|y l].
  - cbn [String.concat length]. rewrite Hx. nia.
  - change (String.concat sep (x :: y :: l))
      with (x ++ sep ++ String.concat sep (y :: l)).
    rewrite !line_breaks_app, Hx, IH by discriminate.
    cbn [length]. nia.
Qed.

Lemma dump_example_line_breaks (example : Example) :
  Output.line_breaks (Output.dump_example example) = 4.
Proof.
  unfold Output.dump_example, Json.dump_dict_indent.
  cbn [map String.concat].
  rewrite !line_breaks_app.
  rewrite !(printable_no_line_break _ (printable_dumps_str _)).
  reflexivity.
Qed.

(** X13: the corpus file is [[]] for no example; otherwise it is an
    opening bracket on a line, five lines for each example (a brace, the
    prompt, the code and the category on a line each, a brace) and a
    closing bracket, so that it has five line breaks for each example and
    one more: 601 for the corpus of [main].  The entry of an example tells
    all of it. *)
Theorem corpus_file_layout (examples : list Example) :
  Output.corpus_file [] = "[]"
  /\ (examples <> [] ->
      Output.line_breaks (Output.corpus_file examples)
      = (5 * length examples + 1)%nat)
  /\ Output.line_breaks (Output.corpus_file (main_training_data main)) = 601
  /\ (forall e1 e2,
        Output.dump_example e1 = Output.dump_example e2 -> e1 = e2).
Proof.
  assert (forall l : list Example, l <> [] ->
            Output.line_breaks (Output.corpus_file l)
            = (5 * length l + 1)%nat) as Hlines.
  { intros l Hne. unfold Output.corpus_file, Json.dump_list_indent.
    destruct (map Output.dump_example l) as [|x items] eqn:E.
    - destruct l; [congruence | discriminate].
    - rewrite <- E. rewrite !line_breaks_app.
      rewrite (line_breaks_concat _ 4).
      + rewrite length_map. destruct l; [congruence|].
        change (Output.line_breaks "[") with 0.
        change (Output.line_breaks nl) with 1.
        change (Output.line_breaks "  ") with 0.
        change (Output.line_breaks "]") with 0.
        change (Output.line_breaks ("," ++ nl ++ "  ")) with 1.
        simpl length. lia.
      + apply Forall_forall. intros item Hin. apply in_map_iff in Hin.
        destruct Hin as (e & <- & _). apply dump_example_line_breaks.
      + rewrite E. discriminate. }
  split; [reflexivity|]. split; [apply Hlines|]. split.
  - rewrite Hlines.
    + unfold main. cbn [main_training_data]. unfold save_training_data.
      rewrite generate_training_examples_phases, length_app,
        basic_phase_length.
      reflexivity.
    + unfold main. cbn [main_training_data]. unfold save_training_data.
      rewrite generate_training_examples_phases. discriminate.
  - intros [p1 c1 k1] [p2 c2 k2] H.
    unfold Output.dump_example, Json.dump_dict_indent, Json.dumps_str in H.
    cbn [prompt code category map String.concat] in H.
    peel_literal H.
    apply (f_equal Json.read_string) in H.
    rewrite !read_string_escape in H. injection H as -> H.
    peel_literal H.
    apply (f_equal Json.read_string) in H.
    rewrite !read_string_escape in H. injection H as -> H.
    peel_literal H.
    apply (f_equal Json.read_string) in H.
    rewrite !read_string_escape in H. injection H as ->.
    reflexivity.
Qed.

Lemma corpus_file_layout_witness :
  Output.line_breaks
    (Output.corpus_file [basic_example "cube" "BoxGeometry" "red" "0xff0000"])
  = 6.
Proof.
  apply (proj1 (proj2 (corpus_file_layout
                         [basic_example "cube" "BoxGeometry" "red" "0xff0000"]))).
  discriminate.
Defined.

(** ** The CORS header *)

Lemma header_count_app (name : string) (l1 l2 : list Wire.line) :
  Wire.header_count name (l1 ++ l2)%list
  = (Wire.header_count name l1 + Wire.header_count name l2)%nat.
Proof. unfold Wire.header_count. now rewrite filter_app, length_app. Qed.

Lemma header_count_header_lines (name : string) (hs : list (string * string)) :
  ~ In name (map fst hs) ->
  Wire.header_count name (Wire.header_lines hs) = 0.
Proof.
  unfold Wire.header_count, Wire.header_lines.
  induction hs as [|[n v] hs IH]; simpl; [reflexivity|].
  intros Hno. destruct (String.eqb_spec n name) as [->|_].
  - exfalso. apply Hno. now left.
  - apply IH. intros Hin. apply Hno. now right.
Qed.

Section Cors.

Import Server.

Variable json_loads : string -> outcome json.
Variable json_dumps : list (string * json) -> string.
Variable py_str : json -> string.
Variable response_headers : nat -> list (string * string).
Variable error_headers : nat -> string -> list (string * string).
Variable error_body : nat -> string -> string.

Local Abbreviation on_wire :=
  (Wire.on_wire response_headers error_headers error_body).

(** The base class sends no CORS header of its own. *)
Hypothesis response_headers_plain :
  forall code, ~ In Wire.allow_origin (map fst (response_headers code)).
Hypothesis error_headers_plain :
  forall code message,
    ~ In Wire.allow_origin (map fst (error_headers code message)).

Lemma send_error_one_header (code : nat) (message : string) :
  Wire.header_count Wire.allow_origin (on_wire [SendError code message]) = 1.
Proof.
  unfold Wire.on_wire. cbn [flat_map Wire.send]. rewrite app_nil_r.
  change (Wire.StatusLine code :: ?l)%list
    with ([Wire.StatusLine code] ++ l)%list.
  rewrite !header_count_app.
  rewrite (header_count_header_lines _ _ (response_headers_plain code)).
  rewrite (header_count_header_lines _ _ (error_headers_plain code message)).
  reflexivity.
Qed.

Lemma success_headers_two_headers :
  Wire.header_count Wire.allow_origin (on_wire success_headers) = 2.
Proof.
  unfold Wire.on_wire, success_headers. cbn [flat_map Wire.send].
  change (Wire.StatusLine 200 :: ?l)%list
    with ([Wire.StatusLine 200] ++ l)%list.
  rewrite !header_count_app.
  rewrite (header_count_header_lines _ _ (response_headers_plain 200)).
  reflexivity.
Qed.

Lemma on_wire_app (l1 l2 : list call) :
  on_wire (l1 ++ l2)%list = (on_wire l1 ++ on_wire l2)%list.
Proof. unfold Wire.on_wire. apply flat_map_app. Qed.

(** The run ends at once with [send_error]. *)
Ltac error_sent :=
  solve [ unfold Server.generation_failed;
          cbn [Server.run fst snd negb];
          split; [|assumption];
          left; eexists; eexists; split; [reflexivity|];
          apply send_error_one_header ].


End Cors.

